(** * Green-Kubo distinct diffusion coefficients: the ensemble pipeline

    A shallow embedding of
    [mdsuite/calculators/green_kubo_distinct_diffusion_coefficients.py]
    and of the window bookkeeping of [mdsuite/analysis/flux_analyses.py].

    Numbers.  The arrays of the program hold float64 values.  They are
    modelled by real numbers: rounding is left out, the not-a-number value
    that numpy's reductions return on an empty array is kept ([NaN]).
    Indices, lengths and counts are natural numbers or integers as in the
    program. *)

From Stdlib Require Import String ZArith Reals Lra Lia Arith Bool List FinFun.
Import ListNotations.

(* ------------------------------------------------------------------ *)
(** ** The numpy / scipy operations the calculator calls *)

Module Numpy.
Local Open Scope R_scope.

Definition ndarray := list R.

(** A float64 scalar result: a number, or numpy's not-a-number. *)
Inductive float64 : Type :=
| Num (r : R)
| NaN.

(** [np.zeros(n)] for [n >= 0]. *)
Definition zeros (n : nat) : ndarray := repeat 0 n.

(** Elementwise operation on two arrays of one shape. *)
Fixpoint zip_with (f : R -> R -> R) (x y : ndarray) : ndarray :=
  match x, y with
  | a :: x', b :: y' => f a b :: zip_with f x' y'
  | _, _ => []
  end.

(** Binary operation with numpy's broadcasting of one-dimensional shapes:
    equal lengths, or one side of length one; anything else raises. *)
Definition broadcast (f : R -> R -> R) (x y : ndarray) : option ndarray :=
  if (length x =? length y)%nat then Some (zip_with f x y)
  else match x, y with
       | [a], _ => Some (map (f a) y)
       | _, [b] => Some (map (fun a => f a b) x)
       | _, _ => None
       end.

(** [x += y]: the right operand is broadcast to the shape of [x]. *)
Definition iadd (x y : ndarray) : option ndarray :=
  if (length y =? length x)%nat then Some (zip_with Rplus x y)
  else match y with
       | [b] => Some (map (fun a => a + b) x)
       | _ => None
       end.

(** [x.sum()] *)
Definition sum (x : ndarray) : R := fold_right Rplus 0 x.

(** [np.diff(x)] is [x[1:] - x[:-1]]. *)
Definition diff (x : ndarray) : ndarray :=
  zip_with Rminus (skipn 1 x) (removelast x).

(** [np.trapz(y, x=x)] is [(diff(x) * (y[1:] + y[:-1]) / 2.0).sum()]. *)
Definition trapz (y x : ndarray) : option R :=
  match broadcast Rmult (diff x) (zip_with Rplus (skipn 1 y) (removelast y)) with
  | Some p => Some (sum (map (fun v => v / 2) p))
  | None => None
  end.

(** [np.mean(x)]: the sum over the number of elements; on an empty array
    numpy warns and returns nan. *)
Definition mean (x : ndarray) : float64 :=
  match x with
  | [] => NaN
  | _ => Num (sum x / INR (length x))
  end.

(** [np.std(x)] with its default [ddof=0]:
    [sqrt(mean(abs(x - x.mean())**2))]. *)
Definition std (x : ndarray) : float64 :=
  match mean x with
  | NaN => NaN
  | Num m =>
      match mean (map (fun v => Rabs (v - m) ^ 2) x) with
      | NaN => NaN
      | Num v => Num (sqrt v)
      end
  end.

(** Division of a float64 by a real divisor.  nan propagates.  In this
    program a zero divisor only ever meets a nan numerator (see
    [std_defined_divisor_nonzero]). *)
Definition fdiv (a : float64) (b : R) : float64 :=
  match a with
  | NaN => NaN
  | Num r => Num (r / b)
  end.

(** One entry of [scipy.signal.correlate(x, y, mode="full")], after the
    definition in its documentation:
    [z[k] = sum_l x[l] * y[l - k + N - 1]] with [N = len(y)] and [y] taken
    as zero outside its range. *)
Definition correlate_entry (x y : ndarray) (k : nat) : R :=
  sum (map (fun l =>
              if (k <=? l + (length y - 1))%nat
              then nth l x 0 * nth (l + (length y - 1) - k) y 0
              else 0)
           (seq 0 (length x))).

(** [scipy.signal.correlate(x, y, mode="full", method="auto")]: an array of
    [len(x) + len(y) - 1] entries.  The direct and the FFT method compute
    the same sums. *)
Definition correlate_full (x y : ndarray) : ndarray :=
  match x, y with
  | [], _ | _, [] => []
  | _, _ => map (correlate_entry x y) (seq 0 (length x + length y - 1))
  end.

End Numpy.

(* ------------------------------------------------------------------ *)
(** ** Data of the calculator *)

Local Open Scope R_scope.
Local Open Scope string_scope.

(** One row of a velocity tensor: the three Cartesian components. *)
Definition Vec3 : Type := (R * R * R)%type.

(** [row[idx]] for [idx] in [range(3)]. *)
Definition component (idx : nat) (v : Vec3) : R :=
  match v with
  | (vx, vy, vz) =>
      match idx with
      | O => vx
      | S O => vy
      | _ => vz
      end
  end.

(** The time series of one particle, [timesteps x 3]. *)
Definition Series : Type := list Vec3.

(** [series[:, idx]] *)
Definition column (idx : nat) (s : Series) : Numpy.ndarray :=
  map (component idx) s.

(** An ensemble as the data pipeline hands it over: a dictionary from
    ["species/property"] keys to the tensor [particles x timesteps x 3]. *)
Definition Ensemble : Type := list (string * list Series).

(** [d[key]]; a missing key raises. *)
Fixpoint dict_get {V : Type} (d : list (string * V)) (key : string) : option V :=
  match d with
  | [] => None
  | (k, v) :: d' => if String.eqb k key then Some v else dict_get d' key
  end.

(** [itertools.combinations_with_replacement(l, 2)] *)
Fixpoint combinations_with_replacement2 (l : list string) : list (string * string) :=
  match l with
  | [] => []
  | a :: l' => map (pair a) (a :: l') ++ combinations_with_replacement2 l'
  end.

(** [range(lo, hi)] *)
Definition py_range (lo hi : nat) : list nat := seq lo (hi - lo).

(** A [for] loop whose body may raise: the loop stops at the first error. *)
Fixpoint for_each {S A : Type} (body : S -> A -> option S) (l : list A) (s : S)
  : option S :=
  match l with
  | [] => Some s
  | a :: l' =>
      match body s a with
      | Some s' => for_each body l' s'
      | None => None
      end
  end.

Notation "x <- e ;; k" :=
  (match e with Some x => k | None => None end)
  (at level 61, e at next level, right associativity,
   format "'[v' x  <-  e  ;;  '/' k ']'").

(** The experiment constants the calculator reads: [species] maps a species
    name to its [n_particles] (a Python int), the unit factors are Python
    floats. *)
Record Experiment : Type := {
  species : list (string * Z);
  units_length : R;
  units_time : R
}.

Record MemoryManager : Type := {
  minibatch : bool
}.

(** The arguments of [tqdm] in [run_calculator]. *)
Record Tqdm : Type := {
  ncols : nat;
  desc : string;
  total : nat;
  disable : bool
}.

(** The dictionary handed to [queue_data], keys [diffusion_coefficient],
    [uncertainty], [time] and [vacf]. *)
Record ResultRecord : Type := {
  diffusion_coefficient : Numpy.float64;
  uncertainty : Numpy.float64;
  result_time : Numpy.ndarray;
  result_vacf : Numpy.ndarray
}.

(** The attributes of the calculator object that the methods below read or
    write.  [queue] records the calls of [queue_data] and [progress] the
    progress bars created, both in order.  [data_range] is a natural number:
    with a negative one [__call__] already raises at [np.zeros]. *)
Record Calculator : Type := {
  experiment : Experiment;
  memory_manager : MemoryManager;
  n_batches : nat;
  loaded_property : string;
  data_range : nat;
  correlation_time : nat;
  integration_range : nat;
  time : Numpy.ndarray;
  vacf : Numpy.ndarray;
  sigma : list R;
  prefactor : option R;
  combinations : list (string * string);
  queue : list (list string * ResultRecord);
  progress : list Tqdm
}.

Definition set_vacf (st : Calculator) (v : Numpy.ndarray) : Calculator :=
  {| experiment := experiment st; memory_manager := memory_manager st;
     n_batches := n_batches st; loaded_property := loaded_property st;
     data_range := data_range st; correlation_time := correlation_time st;
     integration_range := integration_range st; time := time st;
     vacf := v; sigma := sigma st; prefactor := prefactor st;
     combinations := combinations st; queue := queue st;
     progress := progress st |}.

Definition set_sigma (st : Calculator) (s : list R) : Calculator :=
  {| experiment := experiment st; memory_manager := memory_manager st;
     n_batches := n_batches st; loaded_property := loaded_property st;
     data_range := data_range st; correlation_time := correlation_time st;
     integration_range := integration_range st; time := time st;
     vacf := vacf st; sigma := s; prefactor := prefactor st;
     combinations := combinations st; queue := queue st;
     progress := progress st |}.

Definition set_prefactor (st : Calculator) (p : R) : Calculator :=
  {| experiment := experiment st; memory_manager := memory_manager st;
     n_batches := n_batches st; loaded_property := loaded_property st;
     data_range := data_range st; correlation_time := correlation_time st;
     integration_range := integration_range st; time := time st;
     vacf := vacf st; sigma := sigma st; prefactor := Some p;
     combinations := combinations st; queue := queue st;
     progress := progress st |}.

Definition queue_data (st : Calculator) (data : ResultRecord)
  (subjects : list string) : Calculator :=
  {| experiment := experiment st; memory_manager := memory_manager st;
     n_batches := n_batches st; loaded_property := loaded_property st;
     data_range := data_range st; correlation_time := correlation_time st;
     integration_range := integration_range st; time := time st;
     vacf := vacf st; sigma := sigma st; prefactor := prefactor st;
     combinations := combinations st;
     queue := queue st ++ [(subjects, data)];
     progress := progress st |}.

Definition show_progress (st : Calculator) (bar : Tqdm) : Calculator :=
  {| experiment := experiment st; memory_manager := memory_manager st;
     n_batches := n_batches st; loaded_property := loaded_property st;
     data_range := data_range st; correlation_time := correlation_time st;
     integration_range := integration_range st; time := time st;
     vacf := vacf st; sigma := sigma st; prefactor := prefactor st;
     combinations := combinations st; queue := queue st;
     progress := progress st ++ [bar] |}.

(* ------------------------------------------------------------------ *)
(** ** The methods of [GreenKuboDistinctDiffusionCoefficients] *)

(** [__init__]: the attributes the constructor itself creates, here
    [sigma = []].  Attributes that only [__call__] creates hold empty
    placeholders until then; no method reads them before. *)
Definition init (e : Experiment) (mm : MemoryManager) (nb : nat)
  (property : string) : Calculator :=
  {| experiment := e; memory_manager := mm; n_batches := nb;
     loaded_property := property;
     data_range := 0; correlation_time := 0; integration_range := 0;
     time := []; vacf := []; sigma := []; prefactor := None;
     combinations := []; queue := []; progress := [] |}.

(** The body of [__call__].  [tau] is the time axis that
    [_handle_tau_values] of the parent class returns; [sp] and [ir] are the
    arguments [species] and [integration_range], [None] by default. *)
Definition call (st : Calculator) (sp : option (list string)) (dr ct : nat)
  (ir : option nat) (tau : Numpy.ndarray) : Calculator :=
  let ir' := match ir with Some n => n | None => dr end in
  let sp' := match sp with
             | Some l => l
             | None => map fst (species (experiment st))
             end in
  {| experiment := experiment st; memory_manager := memory_manager st;
     n_batches := n_batches st; loaded_property := loaded_property st;
     data_range := dr; correlation_time := ct; integration_range := ir';
     time := tau; vacf := Numpy.zeros dr; sigma := sigma st;
     prefactor := prefactor st;
     combinations := combinations_with_replacement2 sp';
     queue := queue st; progress := progress st |}.

(** Python's [sum] over a list of arrays: it starts from the scalar [0],
    which broadcasts like the one-element array [[0]]. *)
Definition py_sum (l : list Numpy.ndarray) : option Numpy.ndarray :=
  for_each (Numpy.broadcast Rplus) l [0].

(** The summand of [ensemble_operation] for one particle pair: the full
    correlations of the three columns, added up. *)
Definition pair_correlation (a b : Series) : option Numpy.ndarray :=
  py_sum (map (fun idx => Numpy.correlate_full (column idx a) (column idx b))
              (py_range 0 3)).

(** The body of the inner loop of [ensemble_operation] at indices [i], [j]. *)
Definition pair_step (same_species : bool) (P0 P1 : list Series) (i : nat)
  (acc : Numpy.ndarray) (j : nat) : option Numpy.ndarray :=
  if same_species && (i =? j)%nat then Some acc
  else c <- pair_correlation (nth i P0 []) (nth j P1 []) ;;
       Numpy.iadd acc c.

(** The two nested loops of [ensemble_operation]. *)
Definition pair_loops (same_species : bool) (data : Ensemble)
  (dict_ref : list string) (acc0 : Numpy.ndarray) : option Numpy.ndarray :=
  ref0 <- nth_error dict_ref 0 ;;
  P0 <- dict_get data ref0 ;;
  for_each
    (fun acc i =>
       ref1 <- nth_error dict_ref 1 ;;
       P1 <- dict_get data ref1 ;;
       for_each (pair_step same_species P0 P1 i)
                (py_range (i + 1) (length P1)) acc)
    (py_range 0 (length P0)) acc0.

(** [ensemble_operation(data, dict_ref, same_species)] *)
Definition ensemble_operation (st : Calculator) (data : Ensemble)
  (dict_ref : list string) (same_species : bool) : option Calculator :=
  let dr := data_range st in
  let self_vacf := Numpy.zeros dr in
  if (dr =? 0)%nat then None (* np.zeros(-1) raises *)
  else
    full <- pair_loops same_species data dict_ref (Numpy.zeros (2 * dr - 1)) ;;
    self_vacf' <- Numpy.iadd self_vacf (skipn (dr - 1) full) ;;
    integral <- Numpy.trapz (skipn (dr - 1) full) (time st) ;;
    Some (set_sigma (set_vacf st self_vacf') (sigma st ++ [integral])).

(** [_calculate_prefactor(species)].  The division is one of Python
    numbers and raises on a zero denominator. *)
Definition calculate_prefactor (st : Calculator) (sp : string * string)
  : option Calculator :=
  n0 <- dict_get (species (experiment st)) (fst sp) ;;
  n1 <- dict_get (species (experiment st)) (snd sp) ;;
  let atom_scale :=
    if String.eqb (fst sp) (snd sp) then (n0 * (n1 - 1))%Z else (n0 * n1)%Z in
  let numerator := units_length (experiment st) ^ 2 in
  let denominator :=
    3 * units_time (experiment st) * IZR (Z.of_nat (data_range st) - 1)
    * IZR atom_scale in
  if Req_dec_T denominator 0 then None
  else Some (set_prefactor st (numerator / denominator)).

(** [_post_operation_processes(species)] *)
Definition post_operation_processes (st : Calculator) (sp : string * string)
  : option Calculator :=
  p <- prefactor st ;;
  let result := map (Rmult p) (sigma st) in
  let data :=
    {| diffusion_coefficient := Numpy.mean result;
       uncertainty :=
         Numpy.fdiv (Numpy.std result) (sqrt (INR (length result)));
       result_time := time st;
       result_vacf := vacf st |} in
  Some (queue_data st data [fst sp; snd sp]).

Section RunCalculator.

(** The batch and ensemble datasets come from the parent class
    [TrajectoryCalculator]; here they are parameters that hand out the
    data and leave the attributes above alone.  [dependencies_met] is the
    outcome of [_run_dependency_check]. *)
Variable Batch : Type.
Variable get_batch_dataset : list string -> list Batch.
Variable get_ensemble_dataset : Batch -> list string -> list Ensemble.
Variable dependencies_met : bool.

(** The body of the loop over the batches. *)
Definition process_batch (species_values dict_ref : list string)
  (st : Calculator) (batch : Batch) : option Calculator :=
  for_each (fun s ensemble => ensemble_operation s ensemble dict_ref false)
           (get_ensemble_dataset batch species_values) st.

(** The body of the loop over the combinations. *)
Definition process_combination (st : Calculator)
  (combination : string * string) : option Calculator :=
  let species_values := [fst combination; snd combination] in
  let dict_ref :=
    map (fun s => s ++ "/" ++ loaded_property st) species_values in
  let batch_ds := get_batch_dataset species_values in
  let bar := {| ncols := 70;
                desc := fst combination ++ "-" ++ snd combination;
                total := n_batches st;
                disable := minibatch (memory_manager st) |} in
  st1 <- for_each (process_batch species_values dict_ref) batch_ds
                  (show_progress st bar) ;;
  st2 <- calculate_prefactor st1 combination ;;
  st3 <- post_operation_processes st2 combination ;;
  Some (set_sigma st3 []).

(** [run_calculator()] *)
Definition run_calculator (st : Calculator) : option Calculator :=
  if dependencies_met
  then for_each process_combination (combinations st) st
  else None.

End RunCalculator.

(* ------------------------------------------------------------------ *)
(** ** What one ensemble and one combination contribute *)

(** What [ensemble_operation] computes from the data alone: the array it
    stores in [vacf] and the integral it appends to [sigma]. *)
Definition ensemble_outcome (dr : nat) (tm : Numpy.ndarray) (data : Ensemble)
  (dict_ref : list string) (same_species : bool)
  : option (Numpy.ndarray * R) :=
  if (dr =? 0)%nat then None
  else
    full <- pair_loops same_species data dict_ref (Numpy.zeros (2 * dr - 1)) ;;
    v <- Numpy.iadd (Numpy.zeros dr) (skipn (dr - 1) full) ;;
    integral <- Numpy.trapz (skipn (dr - 1) full) tm ;;
    Some (v, integral).

(** Apply a function that may fail to every element, in order. *)
Fixpoint traverse {A B : Type} (f : A -> option B) (l : list A)
  : option (list B) :=
  match l with
  | [] => Some []
  | a :: l' => b <- f a ;; bs <- traverse f l' ;; Some (b :: bs)
  end.

(** The particle-count factor of [_calculate_prefactor]. *)
Definition atom_scale (e : Experiment) (sp : string * string) : option Z :=
  n0 <- dict_get (species e) (fst sp) ;;
  n1 <- dict_get (species e) (snd sp) ;;
  Some (if String.eqb (fst sp) (snd sp) then (n0 * (n1 - 1))%Z
        else (n0 * n1)%Z).

(** The value [_calculate_prefactor] assigns to [prefactor]. *)
Definition prefactor_value (e : Experiment) (dr : nat) (sp : string * string)
  : option R :=
  scale <- atom_scale e sp ;;
  let denominator := 3 * units_time e * IZR (Z.of_nat dr - 1) * IZR scale in
  if Req_dec_T denominator 0 then None
  else Some (units_length e ^ 2 / denominator).

(** The two statistics of [_post_operation_processes] for the samples
    [samples] scaled by [p]. *)
Definition scaled_mean (p : R) (samples : list R) : Numpy.float64 :=
  Numpy.mean (map (Rmult p) samples).

Definition scaled_standard_error (p : R) (samples : list R) : Numpy.float64 :=
  Numpy.fdiv (Numpy.std (map (Rmult p) samples))
             (sqrt (INR (length (map (Rmult p) samples)))).

Section CombinationOutcome.

Variable Batch : Type.
Variable get_batch_dataset : list string -> list Batch.
Variable get_ensemble_dataset : Batch -> list string -> list Ensemble.

(** All ensembles of a combination, batch after batch. *)
Definition combination_ensembles (c : string * string) : list Ensemble :=
  flat_map (fun b => get_ensemble_dataset b [fst c; snd c])
           (get_batch_dataset [fst c; snd c]).

(** The outcomes of the ensembles of a combination: a function of the
    combination, the window length, the time axis and the property name. *)
Definition combination_outcomes (dr : nat) (tm : Numpy.ndarray)
  (property : string) (c : string * string)
  : option (list (Numpy.ndarray * R)) :=
  traverse
    (fun e =>
       ensemble_outcome dr tm e
         (map (fun s => s ++ "/" ++ property) [fst c; snd c]) false)
    (combination_ensembles c).

(** The state a combination leaves behind, given the outcomes [os] of its
    ensembles and its prefactor [p]. *)
Definition combination_state (st : Calculator) (c : string * string)
  (os : list (Numpy.ndarray * R)) (p : R) : Calculator :=
  let v := last (map fst os) (vacf st) in
  let samples := (sigma st ++ map snd os)%list in
  {| experiment := experiment st; memory_manager := memory_manager st;
     n_batches := n_batches st; loaded_property := loaded_property st;
     data_range := data_range st; correlation_time := correlation_time st;
     integration_range := integration_range st; time := time st;
     vacf := v; sigma := []; prefactor := Some p;
     combinations := combinations st;
     queue := queue st
              ++ [([fst c; snd c],
                   {| diffusion_coefficient := scaled_mean p samples;
                      uncertainty := scaled_standard_error p samples;
                      result_time := time st;
                      result_vacf := v |})];
     progress := progress st
                 ++ [{| ncols := 70;
                        desc := fst c ++ "-" ++ snd c;
                        total := n_batches st;
                        disable := minibatch (memory_manager st) |}] |}.

(** The record [rec] queued for the combination [c] carries the
    statistics of the samples of [c]'s own ensembles, scaled by [c]'s own
    prefactor, and, when [c] has an ensemble at all, the correlation array
    of [c]'s own last ensemble; [st] supplies the settings. *)
Definition own_record (st : Calculator) (c : string * string)
  (rec : list string * ResultRecord) : Prop :=
  fst rec = [fst c; snd c]
  /\ exists os p,
      combination_outcomes (data_range st) (time st) (loaded_property st) c
      = Some os
      /\ prefactor_value (experiment st) (data_range st) c = Some p
      /\ diffusion_coefficient (snd rec) = scaled_mean p (map snd os)
      /\ uncertainty (snd rec) = scaled_standard_error p (map snd os)
      /\ result_time (snd rec) = time st
      /\ (os <> [] -> result_vacf (snd rec) = last (map fst os) []).

End CombinationOutcome.

(** The prefactor as a formula: the squared length unit over
    [3 * time unit * (data_range - 1) * particle-count factor], the last
    being [na * (na - 1)] for a species with itself and [na * nb] for two
    species. *)
Definition green_kubo_prefactor (e : Experiment) (dr : nat) (same : bool)
  (na nb : Z) : R :=
  units_length e ^ 2
  / (3 * units_time e * IZR (Z.of_nat dr - 1)
     * IZR (if same then na * (na - 1) else na * nb)).

(** The progress bar [run_calculator] creates for a combination. *)
Definition progress_bar (st : Calculator) (c : string * string) : Tqdm :=
  {| ncols := 70;
     desc := fst c ++ "-" ++ snd c;
     total := n_batches st;
     disable := minibatch (memory_manager st) |}.

(** An empty sample set is surfaced: the run raises, or no queued record
    carries a nan where its mean or its standard error should be. *)
Definition surfaces_empty_sample_set (outcome : option Calculator) : Prop :=
  match outcome with
  | None => True
  | Some st' =>
      forall rec, In rec (queue st') ->
                  diffusion_coefficient (snd rec) <> Numpy.NaN
                  /\ uncertainty (snd rec) <> Numpy.NaN
  end.

(** Two calculator states with the same settings: everything except the
    accumulators, the prefactor and the two logs. *)
Definition same_settings (a b : Calculator) : Prop :=
  experiment a = experiment b /\ memory_manager a = memory_manager b
  /\ n_batches a = n_batches b /\ loaded_property a = loaded_property b
  /\ data_range a = data_range b /\ time a = time b
  /\ combinations a = combinations b.

(* ------------------------------------------------------------------ *)
(** ** The flux analysis: how many windows the main loop visits *)

Module FluxAnalyses.
Local Open Scope Z_scope.

(** [range(n)] for a Python int [n]: empty when [n <= 0]. *)
Definition range (n : Z) : list Z := map Z.of_nat (seq 0 (Z.to_nat n)).

(** [loop_range = len(flux) - self.data_range - 1] *)
Definition loop_range (len_flux data_range : Z) : Z :=
  len_flux - data_range - 1.

(** The two statistics of the printed report:
    [np.mean(sigma)] and [np.std(sigma) / np.sqrt(len(sigma))], with
    [sigma = prefactor * np.array(sigma)]. *)
Definition report (prefactor : R) (sigma : list R)
  : Numpy.float64 * Numpy.float64 :=
  let sigma' := map (Rmult prefactor) sigma in
  (Numpy.mean sigma',
   Numpy.fdiv (Numpy.std sigma') (sqrt (INR (length sigma')))).

End FluxAnalyses.

(* ------------------------------------------------------------------ *)
(** ** Definitions used to state the properties *)

(** The index pairs [(i, j)] at which the loops of [ensemble_operation]
    reach the correlation, in the order of the loops. *)
Definition correlated_pairs (same_species : bool) (n0 n1 : nat)
  : list (nat * nat) :=
  flat_map
    (fun i =>
       map (pair i)
           (filter (fun j => negb (same_species && (i =? j)%nat))
                   (py_range (i + 1) n1)))
    (py_range 0 n0).

(** What one visited pair adds to the full correlation array. *)
Definition add_pair (P0 P1 : list Series) (acc : Numpy.ndarray)
  (ij : nat * nat) : option Numpy.ndarray :=
  c <- pair_correlation (nth (fst ij) P0 []) (nth (snd ij) P1 []) ;;
  Numpy.iadd acc c.

(** The last three statements of [ensemble_operation], given the full
    correlation array the loops have built. *)
Definition fold_one_sided (st : Calculator) (full : Numpy.ndarray)
  : option Calculator :=
  let dr := data_range st in
  self_vacf' <- Numpy.iadd (Numpy.zeros dr) (skipn (dr - 1) full) ;;
  integral <- Numpy.trapz (skipn (dr - 1) full) (time st) ;;
  Some (set_sigma (set_vacf st self_vacf') (sigma st ++ [integral])).

(** The array that [pair_correlation] returns (see
    [pair_correlation_sum]): the three full correlations added entry by
    entry. *)
Definition pair_array (a b : Series) : Numpy.ndarray :=
  Numpy.zip_with Rplus
    (Numpy.zip_with Rplus
       (map (Rplus 0) (Numpy.correlate_full (column 0 a) (column 0 b)))
       (Numpy.correlate_full (column 1 a) (column 1 b)))
    (Numpy.correlate_full (column 2 a) (column 2 b)).

(** Every particle of the tensor has [dr] timesteps. *)
Definition well_shaped (dr : nat) (P : list Series) : Prop :=
  Forall (fun s => length s = dr) P.

(** The full correlation array the loops build for the tensors [P0], [P1]:
    the arrays of the visited pairs added, entry by entry, to
    [np.zeros(2 * dr - 1)]. *)
Definition full_correlation (same_species : bool) (P0 P1 : list Series)
  (dr : nat) : Numpy.ndarray :=
  fold_left (Numpy.zip_with Rplus)
    (map (fun ij => pair_array (nth (fst ij) P0 []) (nth (snd ij) P1 []))
         (correlated_pairs same_species (length P0) (length P1)))
    (Numpy.zeros (2 * dr - 1)).

(** Entry [k] of the correlation of one particle pair, written as the sum
    over the three columns. *)
Definition pair_entry (a b : Series) (k : nat) : R :=
  Numpy.sum
    (map (fun idx =>
            nth k (Numpy.correlate_full (column idx a) (column idx b)) 0)
         (py_range 0 3)).

(** The sum over the three dimensions and all timesteps of
    [a[t][idx] * b[t][idx]]. *)
Definition dot_sum (a b : Series) : R :=
  Numpy.sum
    (map (fun idx =>
            Numpy.sum
              (map (fun t => nth t (column idx a) 0 * nth t (column idx b) 0)
                   (seq 0 (length a))))
         (py_range 0 3)).

(** The elementwise sum of the one-sided correlations of a list of arrays. *)
Definition sum_arrays (n : nat) (l : list Numpy.ndarray) : Numpy.ndarray :=
  fold_left (Numpy.zip_with Rplus) l (Numpy.zeros n).

(** The textbook sample standard deviation, with Bessel's divisor
    [n - 1]. *)
Definition sample_standard_deviation (x : list R) : R :=
  let m := Numpy.sum x / INR (length x) in
  sqrt (Numpy.sum (map (fun v => (v - m) ^ 2) x) / (INR (length x) - 1)).

(** The standard deviation with divisor [n]. *)
Definition population_standard_deviation (x : list R) : R :=
  let m := Numpy.sum x / INR (length x) in
  sqrt (Numpy.sum (map (fun v => (v - m) ^ 2) x) / INR (length x)).

(** The statistics a record should carry if its standard error were built
    on the sample standard deviation. *)
Definition sample_based_statistics (x : list R) (rec : ResultRecord) : Prop :=
  diffusion_coefficient rec = Numpy.Num (Numpy.sum x / INR (length x))
  /\ uncertainty rec
     = Numpy.Num (sample_standard_deviation x / sqrt (INR (length x))).

(* ------------------------------------------------------------------ *)
(** ** A small experiment: one species of two particles, windows of two
    timesteps *)

Module Example.

Definition ones : Series := [(1, 0, 0); (1, 0, 0)].
Definition twos : Series := [(2, 0, 0); (2, 0, 0)].

Definition ensemble_ones : Ensemble := [("Na/Velocities", [ones; ones])].
Definition ensemble_twos : Ensemble := [("Na/Velocities", [twos; twos])].

Definition sodium : Experiment :=
  {| species := [("Na", 2%Z)]; units_length := 1; units_time := 1 |}.

Definition manager : MemoryManager := {| minibatch := true |}.

(** The calculator after [__init__] and [__call__] with
    [species=["Na"], data_range=2, correlation_time=1]. *)
Definition calculator : Calculator :=
  call (init sodium manager 1 "Velocities") (Some ["Na"]) 2 1 None [0; 1].

(** One batch that holds two ensembles. *)
Definition batches (sv : list string) : list (list Ensemble) :=
  [[ensemble_ones; ensemble_twos]].

Definition ensembles (b : list Ensemble) (sv : list string) : list Ensemble :=
  b.

(** A trajectory too short for a single window: one batch, no ensemble. *)
Definition short_batches (sv : list string) : list (list Ensemble) := [[]].

(** The outcomes of the two ensembles and the prefactor of Na-Na. *)
Definition outcomes : list (Numpy.ndarray * R) :=
  [([2; 1], 3 / 2); ([8; 4], 6)].

Definition final : Calculator :=
  combination_state calculator ("Na", "Na") outcomes (1 / 6).

Definition final_short : Calculator :=
  combination_state calculator ("Na", "Na") [] (1 / 6).

(** A calculator about to post-process the two samples 0 and 2 with the
    prefactor 1. *)
Definition two_samples : Calculator :=
  set_sigma (set_prefactor calculator 1) [0; 2].

End Example.

(* ------------------------------------------------------------------ *)
(** ** [plot_data] *)

(** [l[i]] for a Python int [i]: a negative index counts from the end, an
    index out of range raises. *)
Definition py_getitem (l : list R) (i : Z) : option R :=
  let n := Z.of_nat (length l) in
  if ((0 <=? i) && (i <? n))%Z then nth_error l (Z.to_nat i)
  else if ((- n <=? i) && (i <? 0))%Z then nth_error l (Z.to_nat (n + i))
  else None.

(** What [plot_data] hands to [run_visualization] for one record: the two
    data series and the location of the dashed [Span].  The title, a
    formatted rendering of the two statistics, is left out. *)
Record Plot : Type := {
  x_data : Numpy.ndarray;
  y_data : Numpy.ndarray;
  span_location : R
}.

(** The body of the loop of [plot_data]. *)
Definition plot_one (st : Calculator) (val : ResultRecord) : option Plot :=
  let x := map (fun t => t * units_time (experiment st)) (result_time val) in
  loc <- py_getitem x (Z.of_nat (integration_range st) - 1) ;;
  Some {| x_data := x; y_data := result_vacf val; span_location := loc |}.

(** [plot_data(data)] *)
Definition plot_data (st : Calculator) (data : list (string * ResultRecord))
  : option (list Plot) :=
  traverse (fun kv => plot_one st (snd kv)) data.

(* ------------------------------------------------------------------ *)
(** ** The thermal conductivity of the flux analysis *)

Module Floats.

(** The value of a float64 division: a number, an infinity or nan. *)
Inductive extended : Type :=
| Finite (r : R)
| PlusInfinity
| MinusInfinity
| NotANumber.

(** numpy's [a / b] for two float64 numbers, [b] being a positive zero
    when it is zero. *)
Definition true_divide (a b : R) : extended :=
  if Req_dec_T b 0
  then if Req_dec_T a 0 then NotANumber
       else if Rlt_dec 0 a then PlusInfinity else MinusInfinity
  else Finite (a / b).

(** Python's [max] over a sequence: the first of the largest elements; an
    empty sequence raises. *)
Definition py_max (l : list R) : option R :=
  match l with
  | [] => None
  | a :: l' => Some (fold_left (fun m x => if Rlt_dec m x then x else m) l' a)
  end.

(** [np.linspace(start, stop, num)]: [num] points from [start], evenly
    spaced, the last one set to [stop]. *)
Definition linspace (start stop : R) (num : nat) : Numpy.ndarray :=
  match num with
  | O => []
  | S O => [start]
  | S (S _) =>
      (removelast
         (map (fun i => INR i * ((stop - start) / INR (num - 1)) + start)
              (seq 0 num))
       ++ [stop])%list
  end.

End Floats.

Module ThermalFlux.

(** The attributes of the parent experiment that the class reads. *)
Record Parent : Type := {
  time_step : R;
  sample_rate : Z;
  unit_time : R;
  unit_length : R;
  temperature : R;
  volume : R
}.

(** [self.time] as [__init__] builds it. *)
Definition init_time (parent : Parent) (dr : nat) : Numpy.ndarray :=
  Floats.linspace 0
    (INR dr * time_step parent * IZR (sample_rate parent) * unit_time parent)
    dr.

(** The rows of the transposed matrix of three columns. *)
Fixpoint transpose3 (c1 c2 c3 : Numpy.ndarray) : list Vec3 :=
  match c1, c2, c3 with
  | a :: c1', b :: c2', c :: c3' => (a, b, c) :: transpose3 c1' c2' c3'
  | _, _, _ => []
  end.

(** [load_flux_matrix()].  [load_column] is the method of the parent; a
    column that cannot be loaded raises.  Columns of different lengths make
    no matrix. *)
Definition load_flux_matrix (load_column : string -> option Numpy.ndarray)
  : option (list Vec3) :=
  c1 <- load_column "c_flux_thermal[1]" ;;
  c2 <- load_column "c_flux_thermal[2]" ;;
  c3 <- load_column "c_flux_thermal[3]" ;;
  if ((length c1 =? length c2) && (length c2 =? length c3))%nat
  then Some (transpose3 c1 c2 c3)
  else None.

(** What [_compute_thermal_conductivity] leaves behind: the two printed
    statistics, the value stored in the parent, and the curve plotted when
    [plot] is set. *)
Record Outcome : Type := {
  printed_mean : Numpy.float64;
  printed_error : Numpy.float64;
  stored_conductivity : Numpy.float64;
  plotted : option (Numpy.ndarray * list Floats.extended)
}.

(** [_compute_thermal_conductivity()].  [kB] is the Boltzmann constant of
    [mdsuite.utils.constants] and [convolution] the function of that name,
    both outside the sources at hand. *)
Definition compute_thermal_conductivity (kB : R) (parent : Parent)
  (plot : bool) (dr : nat)
  (load_column : string -> option Numpy.ndarray)
  (convolution : Z -> list Vec3 -> nat -> Numpy.ndarray -> option (list R))
  : option Outcome :=
  let averaged_jacf := Numpy.zeros dr in
  let denominator :=
    3 * (INR dr / 2 - 1) * temperature parent ^ 2 * kB * volume parent
    * unit_length parent ^ 3 in
  if Req_dec_T denominator 0 then None
  else
    let prefactor := 1 / denominator in
    flux <- load_flux_matrix load_column ;;
    let loop_range :=
      FluxAnalyses.loop_range (Z.of_nat (length flux)) (Z.of_nat dr) in
    sigma <- convolution loop_range flux dr (init_time parent dr) ;;
    let sigma' := map (Rmult prefactor) sigma in
    curve <- (if plot
              then m <- Floats.py_max averaged_jacf ;;
                   Some (Some (init_time parent dr,
                               map (fun a => Floats.true_divide a m)
                                   averaged_jacf))
              else Some None) ;;
    Some {| printed_mean := Numpy.mean sigma';
            printed_error :=
              Numpy.fdiv (Numpy.std sigma') (sqrt (INR (length sigma')));
            stored_conductivity := Numpy.fdiv (Numpy.mean sigma') 100;
            plotted := curve |}.

End ThermalFlux.

(* ------------------------------------------------------------------ *)
(** ** The command line interface, [UI.py] *)

Module UI.

(** The object a function of the interface returns: a [Trajectory] on which
    [Build_Database] or [Load_Class] has been called. *)
Inductive TrajectoryClass : Type :=
| Built (project_name filepath : string)
| Loaded (project_name filepath : string).

(** What the interface does besides: it asks for a decision or for a new
    name, it removes a directory tree, it prints a message. *)
Inductive Effect : Type :=
| AskedDecision (project_name : string)
| AskedNewName
| Removed (path : string)
| PrintedUnrecognized
| PrintedNothingToStudy.

(** [entry[23:-1]] *)
Definition directory_name (entry : string) : string :=
  substring 23 (String.length entry - 1 - 23) entry.

(** The result of a step: the value, the answers the user has still to
    give, and the effects so far.  [None] stands for an exception, here the
    end of the input. *)
Definition Step (A : Type) : Type := option (A * list string * list Effect).

(** [Get_Input()] inside [Check_Directories]. *)
Definition get_input (project_name : string) (directories : list string)
  (answers : list string) : Step string :=
  if existsb (String.eqb project_name) directories
  then match answers with
       | a :: rest => Some (a, rest, [AskedDecision project_name])
       | [] => None
       end
  else Some ("4", answers, []).

(** [Process_Decision(decision, project_name, filepath)].  [rmtree path]
    tells whether [shutil.rmtree(path)] succeeds; where it does not (the
    tree is missing, for one) it raises and nothing is built. *)
Definition process_decision (rmtree : string -> bool)
  (decision project_name filepath : string)
  (answers : list string) : Step (option TrajectoryClass) :=
  if String.eqb decision "1"
  then Some (Some (Loaded project_name filepath), answers, [])
  else if String.eqb decision "2"
  then if rmtree (filepath ++ "/" ++ project_name)
       then Some (Some (Built project_name filepath), answers,
                  [Removed (filepath ++ "/" ++ project_name)])
       else None
  else if String.eqb decision "3"
  then match answers with
       | name :: rest => Some (Some (Built name filepath), rest, [AskedNewName])
       | [] => None
       end
  else if String.eqb decision "4"
  then Some (Some (Built project_name filepath), answers, [])
  else Some (None, answers, [PrintedUnrecognized]).

(** [Check_Directories(project_name, filepath)].  [glob] lists the
    directories that match a pattern. *)
Definition check_directories (glob : string -> list string)
  (rmtree : string -> bool)
  (project_name filepath : string) (answers : list string)
  : Step (option TrajectoryClass) :=
  let directories_full := glob (filepath ++ "/*/") in
  let directories := map directory_name directories_full in
  match get_input project_name directories answers with
  | Some (decision, answers1, effects1) =>
      match process_decision rmtree decision project_name filepath
              answers1 with
      | Some (cls, answers2, effects2) =>
          Some (cls, answers2, (effects1 ++ effects2)%list)
      | None => None
      end
  | None => None
  end.

(** The parsed command line. *)
Record Arguments : Type := {
  new_project : bool;
  old_project : bool;
  project_name : string;
  directory : string
}.

(** [Process_Arguments()] inside [Begin_Program], after the parser. *)
Definition process_arguments (glob : string -> list string)
  (rmtree : string -> bool) (args : Arguments) (answers : list string)
  : Step (option TrajectoryClass * string) :=
  if new_project args
  then match check_directories glob rmtree (project_name args)
               (directory args) answers with
       | Some (cls, rest, effects) =>
           Some ((cls, directory args), rest, effects)
       | None => None
       end
  else if old_project args
  then Some ((Some (Loaded (project_name args) (directory args)),
              directory args), answers, [])
  else Some ((None, directory args), answers, [PrintedNothingToStudy]).

End UI.

(* ------------------------------------------------------------------ *)
(** ** Definitions used to state further properties *)

(** The sum over the three dimensions and over the timesteps [t] of
    [a[t + tau][idx] * b[t][idx]]: the series [a] taken [tau] steps ahead
    of [b]. *)
Definition lagged_dot (a b : Series) (tau : nat) : R :=
  Numpy.sum
    (map (fun idx =>
            Numpy.sum
              (map (fun t => nth (t + tau) (column idx a) 0
                             * nth t (column idx b) 0)
                   (seq 0 (length b - tau))))
         (py_range 0 3)).

(** The scalar product of two rows. *)
Definition dot3 (v w : Vec3) : R :=
  component 0 v * component 0 w + component 1 v * component 1 w
  + component 2 v * component 2 w.

(** All entries of an array are zero. *)
Definition all_zero (x : Numpy.ndarray) : Prop := Forall (fun v => v = 0) x.

(** The index of the time axis that the [Span] of [plot_data] marks for an
    integration range [ir] on an axis of [n] points: [ir - 1], and the last
    point when [ir] is 0. *)
Definition span_index (ir n : nat) : nat :=
  if (ir =? 0)%nat then (n - 1)%nat else (ir - 1)%nat.

(** A second experiment: sodium and chlorine, two particles each, where the
    trajectory holds velocities for sodium only. *)
Module Example2.

Definition salt : Experiment :=
  {| species := [("Na", 2%Z); ("Cl", 2%Z)];
     units_length := 1; units_time := 1 |}.

Definition calculator : Calculator :=
  call (init salt Example.manager 1 "Velocities") (Some ["Na"; "Cl"]) 2 1
       None [0; 1].

Definition batches (sv : list string) : list (list Ensemble) :=
  match sv with
  | s :: _ => if String.eqb s "Na"
              then [[Example.ensemble_ones; Example.ensemble_twos]]
              else []
  | [] => []
  end.

Definition after_sodium : Calculator :=
  combination_state calculator ("Na", "Na") Example.outcomes (1 / 6).

Definition after_chlorine : Calculator :=
  combination_state after_sodium ("Cl", "Cl") [] (1 / 6).

End Example2.

(** The same two species with velocities for both, in two ensembles; and
    an ensemble of two species with one particle each. *)
Module Example3.

Definition ensemble_both : Ensemble :=
  [("Na/Velocities", [Example.ones; Example.ones]);
   ("Cl/Velocities", [Example.twos; Example.twos])].

Definition ensemble_swapped : Ensemble :=
  [("Na/Velocities", [Example.twos; Example.twos]);
   ("Cl/Velocities", [Example.ones; Example.ones])].

Definition batches (sv : list string) : list (list Ensemble) :=
  [[ensemble_both; ensemble_swapped]].

(** The outcomes of the two ensembles for Na-Cl and for Cl-Cl; those for
    Na-Na are [Example.outcomes]. *)
Definition mixed_outcomes : list (Numpy.ndarray * R) :=
  [([4; 2], 3); ([4; 2], 3)].

Definition chlorine_outcomes : list (Numpy.ndarray * R) :=
  [([8; 4], 6); ([2; 1], 3 / 2)].

Definition after_sodium : Calculator :=
  combination_state Example2.calculator ("Na", "Na") Example.outcomes (1 / 6).

Definition after_mixed : Calculator :=
  combination_state after_sodium ("Na", "Cl") mixed_outcomes (1 / 12).

Definition final : Calculator :=
  combination_state after_mixed ("Cl", "Cl") chlorine_outcomes (1 / 6).

Definition lone_salt : Experiment :=
  {| species := [("Na", 1%Z); ("Cl", 1%Z)];
     units_length := 1; units_time := 1 |}.

Definition lone_calculator : Calculator :=
  call (init lone_salt Example.manager 1 "Velocities") (Some ["Na"; "Cl"])
       2 1 None [0; 1].

Definition lone_pair : Ensemble :=
  [("Na/Velocities", [Example.ones]); ("Cl/Velocities", [Example.twos])].

End Example3.

(* ------------------------------------------------------------------ *)
(** ** Arrays: lengths and entries *)

Section ArrayLemmas.

Lemma zeros_length (n : nat) : length (Numpy.zeros n) = n.
Proof. apply repeat_length. Qed.

Lemma nth_zeros (n k : nat) : nth k (Numpy.zeros n) 0 = 0.
Proof.
  unfold Numpy.zeros. revert k.
  induction n as [|n IH]; intros [|k]; simpl; auto.
Qed.

Lemma zip_with_length (f : R -> R -> R) (x y : Numpy.ndarray) :
  length x = length y -> length (Numpy.zip_with f x y) = length x.
Proof.
  revert y. induction x as [|a x IH]; intros [|b y] H; simpl in *;
    try discriminate; auto.
Qed.

Lemma nth_zip_with_plus (x y : Numpy.ndarray) (k : nat) :
  length x = length y ->
  nth k (Numpy.zip_with Rplus x y) 0 = nth k x 0 + nth k y 0.
Proof.
  revert y k. induction x as [|a x IH]; intros [|b y] k H; simpl in *;
    try discriminate.
  - destruct k; lra.
  - destruct k; [reflexivity|]. apply IH. lia.
Qed.

Lemma iadd_same_length (x y : Numpy.ndarray) :
  length y = length x -> Numpy.iadd x y = Some (Numpy.zip_with Rplus x y).
Proof.
  intros H. unfold Numpy.iadd. rewrite H, Nat.eqb_refl. reflexivity.
Qed.

Lemma broadcast_same_length (f : R -> R -> R) (x y : Numpy.ndarray) :
  length x = length y ->
  Numpy.broadcast f x y = Some (Numpy.zip_with f x y).
Proof.
  intros H. unfold Numpy.broadcast. rewrite H, Nat.eqb_refl. reflexivity.
Qed.

Lemma correlate_full_length (x y : Numpy.ndarray) :
  x <> [] -> y <> [] ->
  length (Numpy.correlate_full x y) = (length x + length y - 1)%nat.
Proof.
  destruct x as [|a x]; [congruence|].
  destruct y as [|b y]; [congruence|].
  intros _ _. unfold Numpy.correlate_full.
  rewrite length_map, length_seq. reflexivity.
Qed.

Lemma correlate_full_nth (x y : Numpy.ndarray) (k : nat) :
  x <> [] -> y <> [] -> (k < length x + length y - 1)%nat ->
  nth k (Numpy.correlate_full x y) 0 = Numpy.correlate_entry x y k.
Proof.
  destruct x as [|a x]; [congruence|].
  destruct y as [|b y]; [congruence|].
  intros _ _ Hk. unfold Numpy.correlate_full.
  set (n := (length (a :: x) + length (b :: y) - 1)%nat) in *.
  rewrite (nth_indep _ 0 (Numpy.correlate_entry (a :: x) (b :: y) 0))
    by (rewrite length_map, length_seq; exact Hk).
  rewrite map_nth, seq_nth by exact Hk. reflexivity.
Qed.

Lemma column_length (idx : nat) (s : Series) :
  length (column idx s) = length s.
Proof. apply length_map. Qed.

Lemma fold_zip_length (l : list Numpy.ndarray) (acc : Numpy.ndarray) :
  Forall (fun c => length c = length acc) l ->
  length (fold_left (Numpy.zip_with Rplus) l acc) = length acc.
Proof.
  revert acc. induction l as [|c l IH]; intros acc H; simpl; auto.
  inversion H as [|? ? Hc Hl]; subst.
  rewrite IH.
  - apply zip_with_length. auto.
  - rewrite zip_with_length by auto. exact Hl.
Qed.

Lemma nth_fold_zip (l : list Numpy.ndarray) (acc : Numpy.ndarray) (k : nat) :
  Forall (fun c => length c = length acc) l ->
  nth k (fold_left (Numpy.zip_with Rplus) l acc) 0
  = nth k acc 0 + Numpy.sum (map (fun c => nth k c 0) l).
Proof.
  revert acc. induction l as [|c l IH]; intros acc H; simpl.
  - lra.
  - inversion H as [|? ? Hc Hl]; subst.
    rewrite IH by (rewrite zip_with_length by auto; exact Hl).
    rewrite nth_zip_with_plus by auto. unfold Numpy.sum. lra.
Qed.

End ArrayLemmas.

(* ------------------------------------------------------------------ *)
(** ** The correlation of one particle pair *)

Lemma for_each_app {S A : Type} (body : S -> A -> option S) (l1 l2 : list A)
  (s : S) :
  for_each body (l1 ++ l2) s
  = match for_each body l1 s with
    | Some s' => for_each body l2 s'
    | None => None
    end.
Proof.
  revert s. induction l1 as [|a l1 IH]; intros s; simpl; auto.
  destruct (body s a); auto.
Qed.

Lemma py_sum_three (c0 c1 c2 : Numpy.ndarray) :
  length c1 = length c0 -> length c2 = length c0 ->
  py_sum [c0; c1; c2]
  = Some (Numpy.zip_with Rplus
            (Numpy.zip_with Rplus (map (Rplus 0) c0) c1) c2).
Proof.
  intros H1 H2. unfold py_sum. cbn [for_each].
  assert (H0 : Numpy.broadcast Rplus [0] c0 = Some (map (Rplus 0) c0)).
  { unfold Numpy.broadcast. destruct c0 as [|v [|w c0]]; reflexivity. }
  rewrite H0.
  rewrite broadcast_same_length by (rewrite length_map; auto).
  rewrite broadcast_same_length; [reflexivity|].
  rewrite zip_with_length; rewrite length_map; auto.
Qed.

Lemma pair_correlation_sum (a b : Series) :
  pair_correlation a b = Some (pair_array a b).
Proof.
  unfold pair_correlation, pair_array. cbn [py_range Nat.sub seq map].
  apply py_sum_three.
  - destruct a, b; reflexivity || (unfold Numpy.correlate_full; cbn;
      rewrite !length_map, !length_seq; reflexivity).
  - destruct a, b; reflexivity || (unfold Numpy.correlate_full; cbn;
      rewrite !length_map, !length_seq; reflexivity).
Qed.

Lemma pair_correlation_shape (a b : Series) (c : Numpy.ndarray) :
  a <> [] -> b <> [] -> pair_correlation a b = Some c ->
  length c = (length a + length b - 1)%nat
  /\ forall k, nth k c 0 = pair_entry a b k.
Proof.
  intros Ha Hb H. rewrite pair_correlation_sum in H.
  injection H as <-. unfold pair_array.
  assert (L : forall idx,
             length (Numpy.correlate_full (column idx a) (column idx b))
             = (length a + length b - 1)%nat).
  { intros idx. rewrite correlate_full_length.
    - rewrite !column_length. reflexivity.
    - destruct a; [congruence | discriminate].
    - destruct b; [congruence | discriminate]. }
  assert (L0 : length (map (Rplus 0)
                          (Numpy.correlate_full (column 0 a) (column 0 b)))
               = (length a + length b - 1)%nat)
    by (rewrite length_map; apply L).
  assert (L01 : length (Numpy.zip_with Rplus
                          (map (Rplus 0)
                             (Numpy.correlate_full (column 0 a) (column 0 b)))
                          (Numpy.correlate_full (column 1 a) (column 1 b)))
                = (length a + length b - 1)%nat)
    by (rewrite zip_with_length; rewrite L0; auto).
  split.
  - rewrite zip_with_length; rewrite L01; auto.
  - intros k. unfold pair_entry.
    cbn [py_range Nat.sub seq map Numpy.sum fold_right].
    rewrite nth_zip_with_plus by (rewrite L01; auto).
    rewrite nth_zip_with_plus by (rewrite L0; auto).
    replace 0 with (0 + 0) at 2 by lra.
    rewrite (map_nth (Rplus 0)). lra.
Qed.

Lemma pair_array_shape (a b : Series) :
  a <> [] -> b <> [] ->
  length (pair_array a b) = (length a + length b - 1)%nat
  /\ forall k, nth k (pair_array a b) 0 = pair_entry a b k.
Proof.
  intros Ha Hb. apply pair_correlation_shape; auto.
  apply pair_correlation_sum.
Qed.

(* ------------------------------------------------------------------ *)
(** ** The loops of [ensemble_operation] *)

Lemma inner_loop_pairs (same_species : bool) (P0 P1 : list Series) (i : nat)
  (js : list nat) (acc : Numpy.ndarray) :
  for_each (pair_step same_species P0 P1 i) js acc
  = for_each (add_pair P0 P1)
      (map (pair i)
           (filter (fun j => negb (same_species && (i =? j)%nat)) js))
      acc.
Proof.
  revert acc. induction js as [|j js IH]; intros acc; [reflexivity|].
  cbn [for_each filter]. unfold pair_step at 1.
  destruct (same_species && (i =? j)%nat) eqn:E; cbn [negb].
  - apply IH.
  - cbn [map for_each]. unfold add_pair at 1. cbn [fst snd].
    destruct (pair_correlation (nth i P0 []) (nth j P1 [])) as [c|];
      [|reflexivity].
    destruct (Numpy.iadd acc c); [apply IH | reflexivity].
Qed.

Lemma pair_loops_pairs (same_species : bool) (data : Ensemble)
  (dict_ref : list string) (ref0 ref1 : string) (P0 P1 : list Series)
  (acc0 : Numpy.ndarray) :
  nth_error dict_ref 0 = Some ref0 -> dict_get data ref0 = Some P0 ->
  nth_error dict_ref 1 = Some ref1 -> dict_get data ref1 = Some P1 ->
  pair_loops same_species data dict_ref acc0
  = for_each (add_pair P0 P1)
      (correlated_pairs same_species (length P0) (length P1)) acc0.
Proof.
  intros R0 D0 R1 D1. unfold pair_loops, correlated_pairs.
  rewrite R0, D0, R1, D1.
  generalize (py_range 0 (length P0)) as rows. intros rows. revert acc0.
  induction rows as [|i rows IH]; intros acc0; [reflexivity|].
  cbn [for_each flat_map]. rewrite for_each_app, inner_loop_pairs.
  destruct (for_each (add_pair P0 P1) _ acc0); [apply IH | reflexivity].
Qed.

Lemma correlated_pairs_in (same_species : bool) (n0 n1 i j : nat) :
  In (i, j) (correlated_pairs same_species n0 n1) <->
  (i < n0 /\ i < j /\ j < n1)%nat.
Proof.
  unfold correlated_pairs, py_range. rewrite in_flat_map. split.
  - intros (i' & Hi & Hj). apply in_seq in Hi.
    apply in_map_iff in Hj. destruct Hj as (j' & E & Hj).
    injection E as -> ->. apply filter_In in Hj. destruct Hj as [Hj _].
    apply in_seq in Hj. lia.
  - intros (Hi & Hij & Hj). exists i. split; [apply in_seq; lia|].
    apply in_map. apply filter_In. split; [apply in_seq; lia|].
    replace (i =? j)%nat with false by (symmetry; apply Nat.eqb_neq; lia).
    rewrite andb_false_r. reflexivity.
Qed.

Lemma NoDup_flat_map_pairs (rows : list nat) (cols : nat -> list nat) :
  NoDup rows -> (forall i, NoDup (cols i)) ->
  NoDup (flat_map (fun i => map (pair i) (cols i)) rows).
Proof.
  intros Hr Hc. induction Hr as [|i rows Hi Hr IH]; cbn [flat_map].
  - constructor.
  - apply NoDup_app.
    + apply Injective_map_NoDup; [|apply Hc].
      intros x y E. injection E. auto.
    + exact IH.
    + intros [i' j'] H1 H2. apply in_map_iff in H1.
      destruct H1 as (j & E & _). injection E as <- <-.
      apply in_flat_map in H2. destruct H2 as (i2 & Hi2 & H2).
      apply in_map_iff in H2. destruct H2 as (j2 & E2 & _).
      injection E2 as -> _. contradiction.
Qed.

Lemma correlated_pairs_NoDup (same_species : bool) (n0 n1 : nat) :
  NoDup (correlated_pairs same_species n0 n1).
Proof.
  unfold correlated_pairs.
  apply (NoDup_flat_map_pairs (py_range 0 n0)
           (fun i => filter (fun j => negb (same_species && (i =? j)%nat))
                            (py_range (i + 1) n1))).
  - apply seq_NoDup.
  - intros i. apply NoDup_filter, seq_NoDup.
Qed.

Lemma add_pairs_fold (P0 P1 : list Series) (pairs : list (nat * nat))
  (acc : Numpy.ndarray) :
  Forall (fun ij => length (pair_array (nth (fst ij) P0 []) (nth (snd ij) P1 []))
                    = length acc) pairs ->
  for_each (add_pair P0 P1) pairs acc
  = Some (fold_left (Numpy.zip_with Rplus)
            (map (fun ij => pair_array (nth (fst ij) P0 []) (nth (snd ij) P1 []))
                 pairs)
            acc).
Proof.
  revert acc. induction pairs as [|ij pairs IH]; intros acc H; [reflexivity|].
  inversion H as [|? ? Hc Hl]; subst.
  cbn [for_each map fold_left]. unfold add_pair at 1.
  rewrite pair_correlation_sum, iadd_same_length by exact Hc.
  apply IH. rewrite zip_with_length by auto. exact Hl.
Qed.

Lemma removelast_length (x : Numpy.ndarray) :
  length (removelast x) = (length x - 1)%nat.
Proof.
  rewrite removelast_firstn_len, length_firstn. lia.
Qed.

Lemma trapz_defined (y x : Numpy.ndarray) :
  length x = length y -> exists v, Numpy.trapz y x = Some v.
Proof.
  intros H. unfold Numpy.trapz, Numpy.diff.
  rewrite broadcast_same_length; [eauto|].
  rewrite !zip_with_length;
    rewrite ?length_skipn, ?removelast_length; lia.
Qed.

Lemma full_correlation_length (same_species : bool) (P0 P1 : list Series)
  (dr : nat) :
  (1 <= dr)%nat -> well_shaped dr P0 -> well_shaped dr P1 ->
  Forall (fun ij => length (pair_array (nth (fst ij) P0 []) (nth (snd ij) P1 []))
                    = length (Numpy.zeros (2 * dr - 1)))
         (correlated_pairs same_species (length P0) (length P1)).
Proof.
  intros Hdr W0 W1. apply Forall_forall. intros [i j] Hin.
  apply correlated_pairs_in in Hin. destruct Hin as (Hi & _ & Hj).
  cbn [fst snd]. rewrite zeros_length.
  assert (La : length (nth i P0 []) = dr).
  { unfold well_shaped in W0. rewrite Forall_forall in W0.
    apply W0, nth_In, Hi. }
  assert (Lb : length (nth j P1 []) = dr).
  { unfold well_shaped in W1. rewrite Forall_forall in W1.
    apply W1, nth_In, Hj. }
  destruct (pair_array_shape (nth i P0 []) (nth j P1 [])) as [L _].
  - intros E. rewrite E in La. simpl in La. lia.
  - intros E. rewrite E in Lb. simpl in Lb. lia.
  - rewrite L, La, Lb. lia.
Qed.

Lemma pair_loops_shaped (same_species : bool) (data : Ensemble)
  (ref0 ref1 : string) (P0 P1 : list Series) (dr : nat) :
  (1 <= dr)%nat ->
  dict_get data ref0 = Some P0 -> dict_get data ref1 = Some P1 ->
  well_shaped dr P0 -> well_shaped dr P1 ->
  pair_loops same_species data [ref0; ref1] (Numpy.zeros (2 * dr - 1))
  = Some (full_correlation same_species P0 P1 dr)
  /\ length (full_correlation same_species P0 P1 dr) = (2 * dr - 1)%nat.
Proof.
  intros Hdr D0 D1 W0 W1.
  pose proof (full_correlation_length same_species P0 P1 dr Hdr W0 W1) as F.
  split.
  - rewrite (pair_loops_pairs same_species data [ref0; ref1] ref0 ref1 P0 P1)
      by (reflexivity || assumption).
    apply add_pairs_fold, F.
  - unfold full_correlation. rewrite fold_zip_length.
    + apply zeros_length.
    + apply Forall_map. exact F.
Qed.

Lemma fold_one_sided_shaped (st : Calculator) (full : Numpy.ndarray) :
  (1 <= data_range st)%nat ->
  length (time st) = data_range st ->
  length full = (2 * data_range st - 1)%nat ->
  exists integral,
    Numpy.trapz (skipn (data_range st - 1) full) (time st) = Some integral
    /\ fold_one_sided st full
       = Some (set_sigma
                 (set_vacf st
                    (Numpy.zip_with Rplus (Numpy.zeros (data_range st))
                       (skipn (data_range st - 1) full)))
                 (sigma st ++ [integral])).
Proof.
  intros Hdr Ht Hf.
  assert (Ls : length (skipn (data_range st - 1) full) = data_range st)
    by (rewrite length_skipn; lia).
  destruct (trapz_defined (skipn (data_range st - 1) full) (time st))
    as [v Hv]; [congruence|].
  exists v. split; [exact Hv|].
  unfold fold_one_sided.
  rewrite iadd_same_length by (rewrite zeros_length; exact Ls).
  rewrite Hv. reflexivity.
Qed.

Lemma ensemble_operation_loops (st : Calculator) (data : Ensemble)
  (dict_ref : list string) (same_species : bool) :
  ensemble_operation st data dict_ref same_species
  = if (data_range st =? 0)%nat then None
    else full <- pair_loops same_species data dict_ref
                   (Numpy.zeros (2 * data_range st - 1)) ;;
         fold_one_sided st full.
Proof. reflexivity. Qed.

Lemma ensemble_operation_shaped (st : Calculator) (data : Ensemble)
  (ref0 ref1 : string) (P0 P1 : list Series) (same_species : bool) :
  (1 <= data_range st)%nat ->
  length (time st) = data_range st ->
  dict_get data ref0 = Some P0 -> dict_get data ref1 = Some P1 ->
  well_shaped (data_range st) P0 -> well_shaped (data_range st) P1 ->
  ensemble_operation st data [ref0; ref1] same_species
  = fold_one_sided st (full_correlation same_species P0 P1 (data_range st)).
Proof.
  intros Hdr Ht D0 D1 W0 W1. rewrite ensemble_operation_loops.
  destruct (data_range st =? 0)%nat eqn:E;
    [apply Nat.eqb_eq in E; lia|].
  destruct (pair_loops_shaped same_species data ref0 ref1 P0 P1
              (data_range st) Hdr D0 D1 W0 W1) as [-> _].
  reflexivity.
Qed.

Lemma correlate_entry_lag_zero (x y : Numpy.ndarray) :
  Numpy.correlate_entry x y (length y - 1)
  = Numpy.sum (map (fun l => nth l x 0 * nth l y 0) (seq 0 (length x))).
Proof.
  unfold Numpy.correlate_entry. f_equal. apply map_ext. intros l.
  replace (length y - 1 <=? l + (length y - 1))%nat with true
    by (symmetry; apply Nat.leb_le; lia).
  replace (l + (length y - 1) - (length y - 1))%nat with l by lia.
  reflexivity.
Qed.

Lemma pair_entry_lag_zero (a b : Series) :
  a <> [] -> b <> [] -> length a = length b ->
  pair_entry a b (length b - 1) = dot_sum a b.
Proof.
  intros Ha Hb L. unfold pair_entry, dot_sum. f_equal.
  apply map_ext. intros idx.
  rewrite correlate_full_nth.
  - rewrite <- (column_length idx b) at 1.
    rewrite correlate_entry_lag_zero, column_length. reflexivity.
  - destruct a; [congruence | discriminate].
  - destruct b; [congruence | discriminate].
  - rewrite !column_length. destruct b; [congruence|]. simpl in *. lia.
Qed.

Lemma full_correlation_entry (same_species : bool) (P0 P1 : list Series)
  (dr k : nat) :
  (1 <= dr)%nat -> well_shaped dr P0 -> well_shaped dr P1 ->
  nth k (full_correlation same_species P0 P1 dr) 0
  = Numpy.sum
      (map (fun ij => pair_entry (nth (fst ij) P0 []) (nth (snd ij) P1 []) k)
           (correlated_pairs same_species (length P0) (length P1))).
Proof.
  intros Hdr W0 W1. unfold full_correlation.
  rewrite nth_fold_zip
    by (apply Forall_map, full_correlation_length; assumption).
  rewrite nth_zeros, map_map, Rplus_0_l. f_equal.
  apply map_ext_in. intros [i j] Hin.
  apply correlated_pairs_in in Hin. destruct Hin as (Hi & _ & Hj).
  cbn [fst snd].
  assert (La : length (nth i P0 []) = dr).
  { unfold well_shaped in W0. rewrite Forall_forall in W0.
    apply W0, nth_In, Hi. }
  assert (Lb : length (nth j P1 []) = dr).
  { unfold well_shaped in W1. rewrite Forall_forall in W1.
    apply W1, nth_In, Hj. }
  apply pair_array_shape.
  - intros E. rewrite E in La. simpl in La. lia.
  - intros E. rewrite E in Lb. simpl in Lb. lia.
Qed.

(* ------------------------------------------------------------------ *)
(** ** The correlation engine *)



(** C3, at two species of one particle each, [a] for sodium and [b] for
    chlorine, called without skipping.  The sum over the three dimensions
    and the two timesteps of [a[t] * b[t]] is 4, and the correlation
    summand of the pair has this value at lag 0; but the loops of
    [ensemble_operation] start the second index at [i + 1] and never reach
    the pair (0, 0), so the stored [vacf] is 0 at lag 0 (and at lag 1), and
    the sample appended to [sigma] is 0. *)
Theorem cross_species_pair_is_skipped :
  dot_sum Example.ones Example.twos = 4
  /\ (exists c,
        pair_correlation Example.ones Example.twos = Some c
        /\ nth 0 (skipn (data_range Example3.lone_calculator - 1) c) 0 = 4)
  /\ exists st',
      ensemble_operation Example3.lone_calculator Example3.lone_pair
        ["Na/Velocities"; "Cl/Velocities"] false = Some st'
      /\ nth 0 (vacf st') 0 = 0
      /\ nth 1 (vacf st') 0 = 0
      /\ length (vacf st') = 2%nat
      /\ sigma st' = [0]
      /\ nth 0 (vacf st') 0 <> dot_sum Example.ones Example.twos.
Proof.
  assert (D : dot_sum Example.ones Example.twos = 4) by (cbn; lra).
  split; [exact D|]. split.
  - exists (pair_array Example.ones Example.twos).
    split; [apply pair_correlation_sum | cbn; lra].
  - eexists. split; [reflexivity|].
    cbn [vacf sigma set_sigma set_vacf].
    split; [cbn; lra|]. split; [cbn; lra|]. split; [reflexivity|].
    split; [cbn; f_equal; lra|].
    rewrite D. cbn. lra.
Qed.

(** C10.  Whatever the flag [same_species], [ensemble_operation] is the
    fold of the pair summand over the index pairs [correlated_pairs], and
    both the stored correlation and the integral sample come from that fold
    alone.  Every such pair [(i, j)] has [i < j]: no pair with equal
    indices, no pair together with its reverse, and no pair twice. *)
Theorem correlated_pairs_strictly_upper
  (st : Calculator) (data : Ensemble) (ref0 ref1 : string)
  (P0 P1 : list Series) (same_species : bool) :
  dict_get data ref0 = Some P0 -> dict_get data ref1 = Some P1 ->
  ensemble_operation st data [ref0; ref1] same_species
  = (if (data_range st =? 0)%nat then None
     else full <- for_each (add_pair P0 P1)
                    (correlated_pairs same_species (length P0) (length P1))
                    (Numpy.zeros (2 * data_range st - 1)) ;;
          fold_one_sided st full)
  /\ (forall i j,
        In (i, j) (correlated_pairs same_species (length P0) (length P1)) ->
        (i < j)%nat)
  /\ (forall i j,
        In (i, j) (correlated_pairs same_species (length P0) (length P1)) ->
        ~ In (j, i) (correlated_pairs same_species (length P0) (length P1)))
  /\ NoDup (correlated_pairs same_species (length P0) (length P1)).
Proof.
  intros D0 D1. split; [|split; [|split]].
  - rewrite ensemble_operation_loops.
    rewrite (pair_loops_pairs same_species data [ref0; ref1] ref0 ref1 P0 P1)
      by (reflexivity || assumption).
    reflexivity.
  - intros i j H. apply correlated_pairs_in in H. lia.
  - intros i j H H'. apply correlated_pairs_in in H, H'. lia.
  - apply correlated_pairs_NoDup.
Qed.

Lemma correlated_pairs_strictly_upper_witness :
  ensemble_operation Example.calculator Example.ensemble_ones
    ["Na/Velocities"; "Na/Velocities"] true
  = (if (data_range Example.calculator =? 0)%nat then None
     else full <- for_each
                    (add_pair [Example.ones; Example.ones]
                              [Example.ones; Example.ones])
                    (correlated_pairs true 2 2)
                    (Numpy.zeros (2 * data_range Example.calculator - 1)) ;;
          fold_one_sided Example.calculator full)
  /\ (forall i j, In (i, j) (correlated_pairs true 2 2) -> (i < j)%nat)
  /\ (forall i j, In (i, j) (correlated_pairs true 2 2) ->
                  ~ In (j, i) (correlated_pairs true 2 2))
  /\ NoDup (correlated_pairs true 2 2).
Proof.
  apply (correlated_pairs_strictly_upper Example.calculator
           Example.ensemble_ones "Na/Velocities" "Na/Velocities"
           [Example.ones; Example.ones] [Example.ones; Example.ones] true);
    reflexivity.
Defined.

(* ------------------------------------------------------------------ *)
(** ** The loops of [run_calculator] *)

Lemma last_cons_default {A : Type} (a d : A) (l : list A) :
  last (a :: l) d = last l a.
Proof.
  revert a d. induction l as [|b l IH]; intros a d; [reflexivity|].
  change (last (a :: b :: l) d) with (last (b :: l) d).
  rewrite (IH b d), (IH b a). reflexivity.
Qed.

Lemma last_default_irrelevant {A : Type} (d d' : A) (l : list A) :
  l <> [] -> last l d = last l d'.
Proof.
  destruct l as [|a l]; [congruence|]. intros _.
  rewrite !last_cons_default. reflexivity.
Qed.

Lemma ensemble_operation_outcome (st : Calculator) (data : Ensemble)
  (dict_ref : list string) (same_species : bool) :
  ensemble_operation st data dict_ref same_species
  = (o <- ensemble_outcome (data_range st) (time st) data dict_ref
            same_species ;;
     Some (set_sigma (set_vacf st (fst o)) (sigma st ++ [snd o]))).
Proof.
  unfold ensemble_operation, ensemble_outcome.
  destruct (data_range st =? 0)%nat; [reflexivity|].
  destruct (pair_loops _ _ _ _) as [full|]; [|reflexivity].
  destruct (Numpy.iadd _ _) as [v|]; [|reflexivity].
  destruct (Numpy.trapz _ _) as [x|]; reflexivity.
Qed.

Lemma ensembles_loop (dict_ref : list string) (same_species : bool)
  (es : list Ensemble) (st : Calculator) :
  for_each (fun s e => ensemble_operation s e dict_ref same_species) es st
  = (os <- traverse
             (fun e => ensemble_outcome (data_range st) (time st) e dict_ref
                         same_species) es ;;
     Some (set_sigma (set_vacf st (last (map fst os) (vacf st)))
                     (sigma st ++ map snd os))).
Proof.
  revert st. induction es as [|e es IH]; intros st.
  - cbn. destruct st. unfold set_sigma, set_vacf. cbn.
    rewrite app_nil_r. reflexivity.
  - cbn [for_each traverse]. rewrite ensemble_operation_outcome.
    destruct (ensemble_outcome _ _ e _ _) as [[v x]|]; [|reflexivity].
    rewrite IH. cbn [data_range time set_sigma set_vacf fst snd].
    destruct (traverse _ es) as [os|]; [|reflexivity].
    cbn [map fst snd vacf sigma]. rewrite last_cons_default.
    unfold set_sigma, set_vacf. cbn. rewrite <- app_assoc. reflexivity.
Qed.

Section RunLemmas.

Variable Batch : Type.
Variable get_batch_dataset : list string -> list Batch.
Variable get_ensemble_dataset : Batch -> list string -> list Ensemble.
Variable dependencies_met : bool.

Let process_combination' :=
  process_combination Batch get_batch_dataset get_ensemble_dataset.
Let outcomes :=
  combination_outcomes Batch get_batch_dataset get_ensemble_dataset.

Lemma batches_loop (sv dict_ref : list string) (bs : list Batch)
  (st : Calculator) :
  for_each (process_batch Batch get_ensemble_dataset sv dict_ref) bs st
  = for_each (fun s e => ensemble_operation s e dict_ref false)
      (flat_map (fun b => get_ensemble_dataset b sv) bs) st.
Proof.
  revert st. induction bs as [|b bs IH]; intros st; [reflexivity|].
  cbn [for_each flat_map]. rewrite for_each_app.
  unfold process_batch at 1.
  destruct (for_each _ (get_ensemble_dataset b sv) st); [apply IH|].
  reflexivity.
Qed.

Lemma process_combination_outcome (st : Calculator) (c : string * string) :
  process_combination' st c
  = (os <- outcomes (data_range st) (time st) (loaded_property st) c ;;
     p <- prefactor_value (experiment st) (data_range st) c ;;
     Some (combination_state st c os p)).
Proof.
  unfold process_combination', process_combination, outcomes,
    combination_outcomes, combination_ensembles.
  rewrite batches_loop, ensembles_loop.
  cbn [data_range time loaded_property show_progress].
  destruct (traverse _ _) as [os|]; [|reflexivity].
  unfold calculate_prefactor, prefactor_value, atom_scale.
  cbn [experiment data_range set_sigma set_vacf show_progress].
  destruct (dict_get _ (fst c)) as [n0|]; [|reflexivity].
  destruct (dict_get _ (snd c)) as [n1|]; [|reflexivity].
  destruct (Req_dec_T _ _); reflexivity.
Qed.

Lemma combination_state_settings (st : Calculator) (c : string * string)
  (os : list (Numpy.ndarray * R)) (p : R) :
  same_settings st (combination_state st c os p).
Proof. repeat split. Qed.

Lemma same_settings_trans (a b c : Calculator) :
  same_settings a b -> same_settings b c -> same_settings a c.
Proof.
  unfold same_settings. intros H1 H2.
  decompose [and] H1. decompose [and] H2. repeat split; congruence.
Qed.

End RunLemmas.

Section RunProperties.

Variable Batch : Type.
Variable get_batch_dataset : list string -> list Batch.
Variable get_ensemble_dataset : Batch -> list string -> list Ensemble.

Let process_combination' :=
  process_combination Batch get_batch_dataset get_ensemble_dataset.
Let own_record' :=
  own_record Batch get_batch_dataset get_ensemble_dataset.

Lemma process_combination_inv (st st' : Calculator) (c : string * string) :
  process_combination' st c = Some st' ->
  exists os p,
    combination_outcomes Batch get_batch_dataset get_ensemble_dataset
      (data_range st) (time st) (loaded_property st) c = Some os
    /\ prefactor_value (experiment st) (data_range st) c = Some p
    /\ st' = combination_state st c os p.
Proof.
  unfold process_combination'. rewrite process_combination_outcome.
  destruct (combination_outcomes _ _ _ _ _ _ c) as [os|]; [|discriminate].
  destruct (prefactor_value _ _ c) as [p|]; [|discriminate].
  intros E. injection E as <-. eauto.
Qed.

Lemma own_record_settings (a b : Calculator) (c : string * string)
  (rec : list string * ResultRecord) :
  same_settings a b -> own_record' b c rec -> own_record' a c rec.
Proof.
  unfold same_settings, own_record', own_record.
  intros (He & _ & _ & Hp & Hd & Ht & _)
         (Hf & os & p & Ho & Hv & Hm & Hu & Hx & Hl).
  split; [exact Hf|]. exists os, p. rewrite He, Hp, Hd, Ht.
  repeat split; auto.
Qed.

Lemma combinations_loop_progress (cs : list (string * string))
  (st st' : Calculator) :
  for_each process_combination' cs st = Some st' ->
  same_settings st st'
  /\ progress st' = (progress st ++ map (progress_bar st) cs)%list.
Proof.
  revert st. induction cs as [|c cs IH]; intros st H.
  - cbn in H. injection H as <-. split; [repeat split|].
    rewrite app_nil_r. reflexivity.
  - cbn [for_each] in H.
    destruct (process_combination' st c) as [st1|] eqn:E; [|discriminate].
    apply process_combination_inv in E.
    destruct E as (os & p & _ & _ & ->).
    pose proof (combination_state_settings st c os p) as S1.
    destruct (IH (combination_state st c os p) H) as (S2 & Hpr).
    split; [exact (same_settings_trans _ _ _ S1 S2)|].
    rewrite Hpr. cbn [progress combination_state map].
    rewrite <- app_assoc. reflexivity.
Qed.

Lemma combinations_loop (cs : list (string * string))
  (st st' : Calculator) :
  sigma st = [] ->
  for_each process_combination' cs st = Some st' ->
  same_settings st st' /\ sigma st' = []
  /\ progress st' = (progress st ++ map (progress_bar st) cs)%list
  /\ exists recs, queue st' = (queue st ++ recs)%list
                  /\ Forall2 (own_record' st) cs recs.
Proof.
  revert st. induction cs as [|c cs IH]; intros st Hs H.
  - cbn in H. injection H as <-. repeat split; auto.
    + rewrite app_nil_r. reflexivity.
    + exists []. rewrite app_nil_r. split; [reflexivity | constructor].
  - cbn [for_each] in H.
    destruct (process_combination' st c) as [st1|] eqn:E; [|discriminate].
    apply process_combination_inv in E.
    destruct E as (os & p & Ho & Hp & ->).
    pose proof (combination_state_settings st c os p) as S1.
    destruct (IH (combination_state st c os p) eq_refl H)
      as (S2 & Hs' & Hpr & recs & Hq & Hr).
    split; [exact (same_settings_trans _ _ _ S1 S2)|].
    split; [exact Hs'|]. split.
    + rewrite Hpr. cbn [progress combination_state map].
      rewrite <- app_assoc. reflexivity.
    + eexists. split.
      * rewrite Hq. cbn [queue combination_state].
        rewrite <- app_assoc. reflexivity.
      * cbn [app]. constructor.
        -- split; [reflexivity|]. exists os, p. rewrite Hs.
           repeat split; auto.
           intros Hne. cbn [snd result_vacf].
           apply last_default_irrelevant.
           destruct os; [congruence | discriminate].
        -- revert Hr. apply Forall2_impl. intros c' rec.
           apply own_record_settings. exact S1.
Qed.

End RunProperties.

(* ------------------------------------------------------------------ *)
(** ** The example experiment, evaluated *)

Ltac by_arithmetic :=
  repeat match goal with
         | |- Some _ = Some _ => apply f_equal
         | |- (_, _) = (_, _) => apply f_equal2
         | |- _ :: _ = _ :: _ => apply f_equal2
         | |- @nil _ = @nil _ => reflexivity
         | |- @eq R _ _ => lra
         end.

Lemma example_outcomes :
  combination_outcomes (list Ensemble) Example.batches Example.ensembles
    2 [0; 1] "Velocities" ("Na", "Na")
  = Some Example.outcomes.
Proof. cbn. unfold Example.outcomes. by_arithmetic. Qed.

Lemma example_prefactor :
  prefactor_value Example.sodium 2 ("Na", "Na") = Some (1 / 6).
Proof.
  unfold prefactor_value. cbn.
  destruct (Req_dec_T _ _) as [E|E]; [exfalso; lra|].
  by_arithmetic.
Qed.

Lemma example_run :
  run_calculator (list Ensemble) Example.batches Example.ensembles true
    Example.calculator
  = Some Example.final.
Proof.
  unfold run_calculator.
  change (combinations Example.calculator) with [("Na", "Na")].
  cbn [for_each]. rewrite process_combination_outcome.
  change (data_range Example.calculator) with 2%nat.
  change (time Example.calculator) with [0; 1].
  change (loaded_property Example.calculator) with "Velocities".
  change (experiment Example.calculator) with Example.sodium.
  rewrite example_outcomes, example_prefactor. reflexivity.
Qed.

Lemma example_run_short :
  run_calculator (list Ensemble) Example.short_batches Example.ensembles true
    Example.calculator
  = Some Example.final_short.
Proof.
  unfold run_calculator.
  change (combinations Example.calculator) with [("Na", "Na")].
  cbn [for_each]. rewrite process_combination_outcome.
  change (data_range Example.calculator) with 2%nat.
  change (experiment Example.calculator) with Example.sodium.
  rewrite example_prefactor. reflexivity.
Qed.

(* ------------------------------------------------------------------ *)
(** ** The correlation series of the record *)

(** C1, at a run of one combination with two ensembles.  The one-sided
    correlations of the two ensembles are [[2; 1]] and [[8; 4]]; the series
    of the queued record is [[8; 4]], the array of the last ensemble alone,
    and not their sum [[10; 5]]: [ensemble_operation] sets [vacf] back to
    zeros each time it is called. *)
Theorem vacf_record_is_last_ensemble_only :
  run_calculator (list Ensemble) Example.batches Example.ensembles true
    Example.calculator
  = Some Example.final
  /\ combination_outcomes (list Ensemble) Example.batches Example.ensembles
       (data_range Example.calculator) (time Example.calculator)
       (loaded_property Example.calculator) ("Na", "Na")
     = Some [([2; 1], 3 / 2); ([8; 4], 6)]
  /\ map (fun rec => result_vacf (snd rec)) (queue Example.final) = [[8; 4]]
  /\ Numpy.zip_with Rplus [2; 1] [8; 4] = [10; 5]
  /\ [8; 4] <> [10; 5].
Proof.
  split; [exact example_run|].
  split; [exact example_outcomes|].
  split; [reflexivity|].
  split; [cbn; by_arithmetic|].
  intros E. injection E as E _. lra.
Qed.

Section RunTheorems.

Variable Batch : Type.
Variable get_batch_dataset : list string -> list Batch.
Variable get_ensemble_dataset : Batch -> list string -> list Ensemble.
Variable dependencies_met : bool.

Let process_combination' :=
  process_combination Batch get_batch_dataset get_ensemble_dataset.
Let run_calculator' :=
  run_calculator Batch get_batch_dataset get_ensemble_dataset
    dependencies_met.
Let outcomes :=
  combination_outcomes Batch get_batch_dataset get_ensemble_dataset.
Let own_record' :=
  own_record Batch get_batch_dataset get_ensemble_dataset.

(** C4.  With [n0] and [n1] the particle counts of the two species of a
    combination and a denominator that is not zero,
    [_calculate_prefactor] sets the prefactor to
    [length^2 / (3 * time * (data_range - 1) * scale)], where [scale] is
    [n0 * (n0 - 1)] for a species with itself and [n0 * n1] otherwise;
    and processing the combination computes this one value, stores it and
    scales all samples of the combination by it. *)
Theorem prefactor_formula (st : Calculator) (c : string * string)
  (n0 n1 : Z) :
  dict_get (species (experiment st)) (fst c) = Some n0 ->
  dict_get (species (experiment st)) (snd c) = Some n1 ->
  3 * units_time (experiment st) * IZR (Z.of_nat (data_range st) - 1)
  * IZR (if String.eqb (fst c) (snd c) then n0 * (n0 - 1) else n0 * n1)
  <> 0 ->
  calculate_prefactor st c
  = Some (set_prefactor st
            (green_kubo_prefactor (experiment st) (data_range st)
               (String.eqb (fst c) (snd c)) n0 n1))
  /\ forall os,
      outcomes (data_range st) (time st) (loaded_property st) c = Some os ->
      process_combination' st c
      = Some (combination_state st c os
                (green_kubo_prefactor (experiment st) (data_range st)
                   (String.eqb (fst c) (snd c)) n0 n1)).
Proof.
  intros D0 D1 Hden.
  assert (E : n0 = n1 \/ String.eqb (fst c) (snd c) = false).
  { destruct (String.eqb (fst c) (snd c)) eqn:Heq; [left | right; auto].
    apply String.eqb_eq in Heq. rewrite Heq in D0. congruence. }
  assert (P : prefactor_value (experiment st) (data_range st) c
              = Some (green_kubo_prefactor (experiment st) (data_range st)
                        (String.eqb (fst c) (snd c)) n0 n1)).
  { unfold prefactor_value, atom_scale, green_kubo_prefactor.
    rewrite D0, D1.
    destruct E as [<- | E].
    - destruct (Req_dec_T _ _) as [Z0|_]; [contradiction | reflexivity].
    - rewrite E in *.
      destruct (Req_dec_T _ _) as [Z0|_]; [contradiction | reflexivity]. }
  split.
  - revert P. unfold calculate_prefactor, prefactor_value, atom_scale.
    rewrite D0, D1.
    destruct (Req_dec_T _ _); [discriminate|].
    intros P. injection P as <-. reflexivity.
  - intros os Ho. unfold process_combination'.
    rewrite process_combination_outcome.
    fold outcomes. rewrite Ho, P. reflexivity.
Qed.

(** C6.  Start a run with an empty [sigma], as [__init__] leaves it.
    Then [sigma] is empty again whenever a combination begins, and at the
    end of the run; and the record queued for each combination carries
    the statistics of the samples of that combination's own ensembles
    only, whatever was processed before it. *)
Theorem sigma_isolated_per_combination (st st' : Calculator) :
  sigma st = [] ->
  run_calculator' st = Some st' ->
  (forall pre c post,
      combinations st = (pre ++ c :: post)%list ->
      exists st_c, for_each process_combination' pre st = Some st_c
                   /\ sigma st_c = [])
  /\ (exists recs, queue st' = (queue st ++ recs)%list
                   /\ Forall2 (own_record' st) (combinations st) recs)
  /\ sigma st' = [].
Proof.
  intros Hs H. unfold run_calculator', run_calculator in H.
  destruct dependencies_met; [|discriminate].
  split; [|split].
  - intros pre c post Hc. rewrite Hc, for_each_app in H.
    destruct (for_each _ pre st) as [st_c|] eqn:E; [|discriminate].
    exists st_c. split; [reflexivity|].
    apply (combinations_loop Batch get_batch_dataset get_ensemble_dataset
             pre st st_c Hs E).
  - apply (combinations_loop Batch get_batch_dataset get_ensemble_dataset
             (combinations st) st st' Hs H).
  - apply (combinations_loop Batch get_batch_dataset get_ensemble_dataset
             (combinations st) st st' Hs H).
Qed.

(** C7 as the program has it.  When a combination has no ensemble and
    its prefactor can be computed, processing it raises nothing: a record
    is queued for it whose mean and whose standard error are both nan. *)
Theorem empty_sample_set_yields_nan (st : Calculator)
  (c : string * string) (p : R) :
  sigma st = [] ->
  combination_ensembles Batch get_batch_dataset get_ensemble_dataset c = [] ->
  prefactor_value (experiment st) (data_range st) c = Some p ->
  exists st' rec,
    process_combination' st c = Some st'
    /\ queue st' = (queue st ++ [([fst c; snd c], rec)])%list
    /\ diffusion_coefficient rec = Numpy.NaN
    /\ uncertainty rec = Numpy.NaN.
Proof.
  intros Hs He Hp. eexists. eexists. split.
  - unfold process_combination'. rewrite process_combination_outcome.
    unfold combination_outcomes. rewrite He. cbn [traverse].
    rewrite Hp. reflexivity.
  - cbn [queue combination_state map last]. rewrite Hs.
    split; [reflexivity|]. split; reflexivity.
Qed.

(** C9.  In a run, one progress bar is created per combination, and the
    [disable] flag of every one of them is the [minibatch] flag of the
    memory manager: all bars are switched off when minibatching is on,
    and all are shown when it is off. *)
Theorem progress_disabled_iff_minibatch (st st' : Calculator) :
  run_calculator' st = Some st' ->
  exists bars,
    progress st' = (progress st ++ bars)%list
    /\ length bars = length (combinations st)
    /\ Forall (fun bar => disable bar = minibatch (memory_manager st)) bars.
Proof.
  intros H. unfold run_calculator', run_calculator in H.
  destruct dependencies_met; [|discriminate].
  apply combinations_loop_progress in H. destruct H as [_ H].
  exists (map (progress_bar st) (combinations st)).
  split; [exact H|]. split; [apply length_map|].
  apply Forall_map, Forall_forall. intros c _. reflexivity.
Qed.

End RunTheorems.

(* ------------------------------------------------------------------ *)
(** ** Mean and standard error *)

Lemma mean_nonempty (x : Numpy.ndarray) :
  x <> [] -> Numpy.mean x = Numpy.Num (Numpy.sum x / INR (length x)).
Proof. destruct x; [congruence | reflexivity]. Qed.

Lemma std_nonempty (x : Numpy.ndarray) :
  x <> [] -> Numpy.std x = Numpy.Num (population_standard_deviation x).
Proof.
  intros H. unfold Numpy.std, population_standard_deviation.
  rewrite mean_nonempty by exact H.
  rewrite mean_nonempty by (destruct x; [congruence | discriminate]).
  rewrite length_map. do 2 f_equal. f_equal. f_equal.
  apply map_ext. intros v. apply pow2_abs.
Qed.

Lemma std_defined_divisor_nonzero (x : Numpy.ndarray) (r : R) :
  Numpy.std x = Numpy.Num r -> sqrt (INR (length x)) <> 0.
Proof.
  destruct x as [|a x]; [discriminate|]. intros _.
  apply Rgt_not_eq, sqrt_lt_R0, lt_0_INR. simpl. lia.
Qed.

Lemma sqrt_2_neq_1 : sqrt 2 <> 1.
Proof.
  intros E. pose proof (sqrt_sqrt 2 ltac:(lra)) as H. rewrite E in H. lra.
Qed.

Lemma statistics_nonempty (p : R) (samples : list R) :
  samples <> [] ->
  scaled_mean p samples
  = Numpy.Num (Numpy.sum (map (Rmult p) samples)
               / INR (length (map (Rmult p) samples)))
  /\ scaled_standard_error p samples
     = Numpy.Num (population_standard_deviation (map (Rmult p) samples)
                  / sqrt (INR (length (map (Rmult p) samples)))).
Proof.
  intros H.
  assert (H' : map (Rmult p) samples <> [])
    by (destruct samples; [congruence | discriminate]).
  unfold scaled_mean, scaled_standard_error.
  rewrite mean_nonempty, std_nonempty by exact H'. split; reflexivity.
Qed.

(** C5 as the program has it.  For a calculator that holds a prefactor [p]
    and a non-empty list of samples, [_post_operation_processes] queues a
    record whose mean is the arithmetic mean of the scaled samples and whose
    standard error is their standard deviation with divisor [n] (numpy's
    default) over the square root of their number; the report of the flux
    analysis computes the same two statistics. *)
Theorem statistics_of_samples (st : Calculator) (c : string * string)
  (p : R) :
  prefactor st = Some p -> sigma st <> [] ->
  (exists rec,
      post_operation_processes st c
      = Some (queue_data st rec [fst c; snd c])
      /\ diffusion_coefficient rec
         = Numpy.Num (Numpy.sum (map (Rmult p) (sigma st))
                      / INR (length (map (Rmult p) (sigma st))))
      /\ uncertainty rec
         = Numpy.Num (population_standard_deviation (map (Rmult p) (sigma st))
                      / sqrt (INR (length (map (Rmult p) (sigma st))))))
  /\ FluxAnalyses.report p (sigma st)
     = (Numpy.Num (Numpy.sum (map (Rmult p) (sigma st))
                   / INR (length (map (Rmult p) (sigma st)))),
        Numpy.Num (population_standard_deviation (map (Rmult p) (sigma st))
                   / sqrt (INR (length (map (Rmult p) (sigma st)))))).
Proof.
  intros Hp Hs. destruct (statistics_nonempty p (sigma st) Hs) as [Hm Hu].
  split.
  - eexists. unfold post_operation_processes. rewrite Hp.
    split; [reflexivity|]. cbn [diffusion_coefficient uncertainty].
    split; [exact Hm | exact Hu].
  - unfold FluxAnalyses.report. f_equal; [exact Hm | exact Hu].
Qed.

Lemma statistics_of_samples_witness :
  (exists rec,
      post_operation_processes Example.two_samples ("Na", "Na")
      = Some (queue_data Example.two_samples rec ["Na"; "Na"])
      /\ diffusion_coefficient rec
         = Numpy.Num (Numpy.sum (map (Rmult 1) [0; 2])
                      / INR (length (map (Rmult 1) [0; 2])))
      /\ uncertainty rec
         = Numpy.Num (population_standard_deviation (map (Rmult 1) [0; 2])
                      / sqrt (INR (length (map (Rmult 1) [0; 2])))))
  /\ FluxAnalyses.report 1 [0; 2]
     = (Numpy.Num (Numpy.sum (map (Rmult 1) [0; 2])
                   / INR (length (map (Rmult 1) [0; 2]))),
        Numpy.Num (population_standard_deviation (map (Rmult 1) [0; 2])
                   / sqrt (INR (length (map (Rmult 1) [0; 2]))))).
Proof.
  apply (statistics_of_samples Example.two_samples ("Na", "Na") 1).
  - reflexivity.
  - discriminate.
Defined.

(** C5, as stated, fails for the two samples 0 and 2 with prefactor 1: the
    queued standard error is [1 / sqrt 2], the one built on the sample
    standard deviation would be [sqrt 2 / sqrt 2]. *)
Lemma standard_error_not_sample_based :
  exists rec,
    post_operation_processes Example.two_samples ("Na", "Na")
    = Some (queue_data Example.two_samples rec ["Na"; "Na"])
    /\ ~ sample_based_statistics (map (Rmult 1) [0; 2]) rec.
Proof.
  eexists. split; [reflexivity|].
  unfold sample_based_statistics. intros [_ H].
  cbn [uncertainty] in H.
  change (map (Rmult 1) (sigma Example.two_samples))
    with [1 * 0; 1 * 2] in H.
  rewrite std_nonempty in H by discriminate.
  cbn [Numpy.fdiv map] in H. injection H as H.
  assert (P : population_standard_deviation [1 * 0; 1 * 2] = 1).
  { unfold population_standard_deviation. cbn.
    transitivity (sqrt 1); [f_equal; lra | apply sqrt_1]. }
  assert (S : sample_standard_deviation [1 * 0; 1 * 2] = sqrt 2).
  { unfold sample_standard_deviation. cbn. f_equal. lra. }
  rewrite P, S in H.
  assert (N : sqrt (INR (length [1 * 0; 1 * 2])) <> 0).
  { apply Rgt_not_eq, sqrt_lt_R0. simpl. lra. }
  apply sqrt_2_neq_1.
  apply (Rmult_eq_reg_r (/ sqrt (INR (length [1 * 0; 1 * 2])))).
  - symmetry. exact H.
  - apply Rinv_neq_0_compat. exact N.
Qed.

(* ------------------------------------------------------------------ *)
(** ** The run on the example experiment *)

Lemma prefactor_formula_witness :
  calculate_prefactor Example.calculator ("Na", "Na")
  = Some (set_prefactor Example.calculator
            (green_kubo_prefactor (experiment Example.calculator)
               (data_range Example.calculator)
               (String.eqb (fst ("Na", "Na")) (snd ("Na", "Na"))) 2 2))
  /\ forall os,
      combination_outcomes (list Ensemble) Example.batches Example.ensembles
        (data_range Example.calculator) (time Example.calculator)
        (loaded_property Example.calculator) ("Na", "Na") = Some os ->
      process_combination (list Ensemble) Example.batches Example.ensembles
        Example.calculator ("Na", "Na")
      = Some (combination_state Example.calculator ("Na", "Na") os
                (green_kubo_prefactor (experiment Example.calculator)
                   (data_range Example.calculator)
                   (String.eqb (fst ("Na", "Na")) (snd ("Na", "Na"))) 2 2)).
Proof.
  apply (prefactor_formula (list Ensemble) Example.batches Example.ensembles
           Example.calculator ("Na", "Na") 2 2).
  - reflexivity.
  - reflexivity.
  - cbn. lra.
Defined.

Lemma example3_run :
  run_calculator (list Ensemble) Example3.batches Example.ensembles true
    Example2.calculator
  = Some Example3.final.
Proof.
  unfold run_calculator.
  change (combinations Example2.calculator)
    with [("Na", "Na"); ("Na", "Cl"); ("Cl", "Cl")].
  assert (O1 : combination_outcomes (list Ensemble) Example3.batches
                 Example.ensembles 2 [0; 1] "Velocities" ("Na", "Na")
               = Some Example.outcomes)
    by (cbn; unfold Example.outcomes; by_arithmetic).
  assert (O2 : combination_outcomes (list Ensemble) Example3.batches
                 Example.ensembles 2 [0; 1] "Velocities" ("Na", "Cl")
               = Some Example3.mixed_outcomes)
    by (cbn; unfold Example3.mixed_outcomes; by_arithmetic).
  assert (O3 : combination_outcomes (list Ensemble) Example3.batches
                 Example.ensembles 2 [0; 1] "Velocities" ("Cl", "Cl")
               = Some Example3.chlorine_outcomes)
    by (cbn; unfold Example3.chlorine_outcomes; by_arithmetic).
  assert (P1 : prefactor_value Example2.salt 2 ("Na", "Na") = Some (1 / 6)).
  { unfold prefactor_value. cbn.
    destruct (Req_dec_T _ _) as [E|E]; [exfalso; lra|]. by_arithmetic. }
  assert (P2 : prefactor_value Example2.salt 2 ("Na", "Cl") = Some (1 / 12)).
  { unfold prefactor_value. cbn.
    destruct (Req_dec_T _ _) as [E|E]; [exfalso; lra|]. by_arithmetic. }
  assert (P3 : prefactor_value Example2.salt 2 ("Cl", "Cl") = Some (1 / 6)).
  { unfold prefactor_value. cbn.
    destruct (Req_dec_T _ _) as [E|E]; [exfalso; lra|]. by_arithmetic. }
  cbn [for_each]. rewrite process_combination_outcome.
  change (data_range Example2.calculator) with 2%nat.
  change (time Example2.calculator) with [0; 1].
  change (loaded_property Example2.calculator) with "Velocities".
  change (experiment Example2.calculator) with Example2.salt.
  rewrite O1, P1. fold Example3.after_sodium.
  rewrite process_combination_outcome.
  change (data_range Example3.after_sodium) with 2%nat.
  change (time Example3.after_sodium) with [0; 1].
  change (loaded_property Example3.after_sodium) with "Velocities".
  change (experiment Example3.after_sodium) with Example2.salt.
  rewrite O2, P2. fold Example3.after_mixed.
  rewrite process_combination_outcome.
  change (data_range Example3.after_mixed) with 2%nat.
  change (time Example3.after_mixed) with [0; 1].
  change (loaded_property Example3.after_mixed) with "Velocities".
  change (experiment Example3.after_mixed) with Example2.salt.
  rewrite O3, P3. reflexivity.
Qed.

Lemma sigma_isolated_per_combination_witness :
  (forall pre c post,
      combinations Example2.calculator = (pre ++ c :: post)%list ->
      exists st_c,
        for_each
          (process_combination (list Ensemble) Example3.batches
             Example.ensembles) pre Example2.calculator = Some st_c
        /\ sigma st_c = [])
  /\ (exists recs,
        queue Example3.final = (queue Example2.calculator ++ recs)%list
        /\ Forall2
             (own_record (list Ensemble) Example3.batches Example.ensembles
                Example2.calculator)
             (combinations Example2.calculator) recs)
  /\ sigma Example3.final = [].
Proof.
  apply (sigma_isolated_per_combination (list Ensemble) Example3.batches
           Example.ensembles true Example2.calculator Example3.final).
  - reflexivity.
  - exact example3_run.
Defined.

Lemma empty_sample_set_yields_nan_witness :
  exists st' rec,
    process_combination (list Ensemble) Example.short_batches
      Example.ensembles Example.calculator ("Na", "Na") = Some st'
    /\ queue st'
       = (queue Example.calculator ++ [([fst ("Na", "Na"); snd ("Na", "Na")], rec)])%list
    /\ diffusion_coefficient rec = Numpy.NaN
    /\ uncertainty rec = Numpy.NaN.
Proof.
  apply (empty_sample_set_yields_nan (list Ensemble) Example.short_batches
           Example.ensembles Example.calculator ("Na", "Na") (1 / 6)).
  - reflexivity.
  - reflexivity.
  - exact example_prefactor.
Defined.

(** C7, as stated, fails on a run whose only combination has no ensemble:
    the run returns normally and the queued record holds nan twice. *)
Lemma empty_sample_set_not_surfaced :
  ~ surfaces_empty_sample_set
      (run_calculator (list Ensemble) Example.short_batches Example.ensembles
         true Example.calculator).
Proof.
  rewrite example_run_short. unfold surfaces_empty_sample_set.
  intros H.
  destruct (H (["Na"; "Na"],
               {| diffusion_coefficient := Numpy.NaN;
                  uncertainty := Numpy.NaN;
                  result_time := [0; 1];
                  result_vacf := [0; 0] |})) as [Hm _].
  - left. reflexivity.
  - apply Hm. reflexivity.
Qed.

Lemma progress_disabled_iff_minibatch_witness :
  exists bars,
    progress Example.final = (progress Example.calculator ++ bars)%list
    /\ length bars = length (combinations Example.calculator)
    /\ Forall (fun bar => disable bar
                          = minibatch (memory_manager Example.calculator))
              bars.
Proof.
  apply (progress_disabled_iff_minibatch (list Ensemble) Example.batches
           Example.ensembles true Example.calculator Example.final).
  exact example_run.
Defined.

(* ------------------------------------------------------------------ *)
(** ** The windows of the flux analysis *)

(** C8, at the boundary.  For a flux series of exactly [data_range]
    samples the loop range that the method computes and hands on is [-1],
    so [range(loop_range)] is empty and no window is visited, where one
    window fits; for a series of six samples and windows of four
    [range(loop_range)] holds the offset 0 only, although the offsets 1 and
    2 also satisfy [offset + data_range <= len(flux)]. *)
Theorem flux_windows_stop_two_short (data_range : Z) :
  FluxAnalyses.loop_range data_range data_range = (-1)%Z
  /\ FluxAnalyses.range (FluxAnalyses.loop_range data_range data_range) = []
  /\ FluxAnalyses.range (FluxAnalyses.loop_range 6 4) = [0%Z]
  /\ (1 + 4 <= 6)%Z /\ (2 + 4 <= 6)%Z.
Proof.
  assert (E : FluxAnalyses.loop_range data_range data_range = (-1)%Z)
    by (unfold FluxAnalyses.loop_range; lia).
  split; [exact E|]. split.
  - rewrite E. reflexivity.
  - split; [reflexivity | lia].
Qed.


(* ------------------------------------------------------------------ *)
(** ** Further properties of [ensemble_operation] *)

Lemma for_each_ext_in {S A : Type} (f g : S -> A -> option S) (l : list A)
  (s : S) :
  (forall s' a, In a l -> f s' a = g s' a) ->
  for_each f l s = for_each g l s.
Proof.
  revert s. induction l as [|a l IH]; intros s H; [reflexivity|].
  cbn [for_each]. rewrite (H s a) by (left; reflexivity).
  destruct (g s a); [|reflexivity].
  apply IH. intros s' a' Ha. apply H. right. exact Ha.
Qed.

Lemma pair_loops_flag (data : Ensemble) (dict_ref : list string)
  (acc : Numpy.ndarray) :
  pair_loops true data dict_ref acc = pair_loops false data dict_ref acc.
Proof.
  unfold pair_loops.
  destruct (nth_error dict_ref 0) as [ref0|]; [|reflexivity].
  destruct (dict_get data ref0) as [P0|]; [|reflexivity].
  apply for_each_ext_in. intros acc' i _.
  destruct (nth_error dict_ref 1) as [ref1|]; [|reflexivity].
  destruct (dict_get data ref1) as [P1|]; [|reflexivity].
  apply for_each_ext_in. intros acc'' j Hj.
  unfold py_range in Hj. apply in_seq in Hj. unfold pair_step.
  replace (i =? j)%nat with false by (symmetry; apply Nat.eqb_neq; lia).
  reflexivity.
Qed.

(** X1.  The flag [same_species] changes nothing: called with [True] or
    with [False], [ensemble_operation] returns the same state or raises in
    the same cases, because the inner loop starts at [i + 1] and the test
    [i == j] never holds. *)
Theorem same_species_flag_has_no_effect (st : Calculator) (data : Ensemble)
  (dict_ref : list string) :
  ensemble_operation st data dict_ref true
  = ensemble_operation st data dict_ref false.
Proof.
  rewrite !ensemble_operation_loops, pair_loops_flag. reflexivity.
Qed.

Lemma iadd_length (x y v : Numpy.ndarray) :
  Numpy.iadd x y = Some v -> length v = length x.
Proof.
  unfold Numpy.iadd.
  destruct (length y =? length x)%nat eqn:E.
  - apply Nat.eqb_eq in E. intros H. injection H as <-.
    apply zip_with_length. auto.
  - destruct y as [|b [|c y]]; try discriminate.
    intros H. injection H as <-. apply length_map.
Qed.

(** X2.  Whenever [ensemble_operation] returns, the stored [vacf] has
    exactly [data_range] entries, [sigma] has grown by exactly one sample,
    and nothing else has changed: the settings, the prefactor, the queue of
    results and the progress bars are those of before. *)
Theorem ensemble_operation_frame (st st' : Calculator) (data : Ensemble)
  (dict_ref : list string) (same_species : bool) :
  ensemble_operation st data dict_ref same_species = Some st' ->
  length (vacf st') = data_range st
  /\ (exists x, sigma st' = (sigma st ++ [x])%list)
  /\ same_settings st st'
  /\ prefactor st' = prefactor st
  /\ queue st' = queue st
  /\ progress st' = progress st.
Proof.
  rewrite ensemble_operation_outcome. unfold ensemble_outcome.
  destruct (data_range st =? 0)%nat; [discriminate|].
  destruct (pair_loops _ _ _ _) as [full|]; [|discriminate].
  destruct (Numpy.iadd _ _) as [v|] eqn:E; [|discriminate].
  destruct (Numpy.trapz _ _) as [x|]; [|discriminate].
  intros H. injection H as <-. cbn.
  apply iadd_length in E. rewrite zeros_length in E.
  repeat split; eauto.
Qed.

Lemma ensemble_operation_frame_witness :
  exists st',
    ensemble_operation Example.calculator Example.ensemble_ones
      ["Na/Velocities"; "Na/Velocities"] false = Some st'
    /\ length (vacf st') = data_range Example.calculator
    /\ (exists x, sigma st' = (sigma Example.calculator ++ [x])%list)
    /\ same_settings Example.calculator st'
    /\ prefactor st' = prefactor Example.calculator
    /\ queue st' = queue Example.calculator
    /\ progress st' = progress Example.calculator.
Proof.
  eexists. split; [reflexivity|].
  apply (ensemble_operation_frame Example.calculator _ Example.ensemble_ones
           ["Na/Velocities"; "Na/Velocities"] false).
  reflexivity.
Defined.

(** X3.  [ensemble_operation] raises when [data_range] is 0, when the key
    of the first species is missing from the data, and when the first
    tensor holds a particle and the key of the second species is missing. *)
Theorem ensemble_operation_raises (st : Calculator) (data : Ensemble)
  (ref0 ref1 : string) (same_species : bool) :
  data_range st = 0%nat
  \/ dict_get data ref0 = None
  \/ (exists P0, dict_get data ref0 = Some P0 /\ P0 <> []
                 /\ dict_get data ref1 = None) ->
  ensemble_operation st data [ref0; ref1] same_species = None.
Proof.
  intros H. rewrite ensemble_operation_loops.
  destruct (data_range st =? 0)%nat eqn:E; [reflexivity|].
  destruct H as [H | [H | (P0 & H0 & Hne & H1)]].
  - rewrite H in E. discriminate.
  - unfold pair_loops. cbn [nth_error]. rewrite H. reflexivity.
  - unfold pair_loops. cbn [nth_error]. rewrite H0.
    destruct P0 as [|a P0]; [congruence|].
    unfold py_range. cbn [length Nat.sub seq for_each].
    rewrite H1. reflexivity.
Qed.

Lemma ensemble_operation_raises_witness :
  ensemble_operation Example.calculator Example.ensemble_ones
    ["Na/Velocities"; "Cl/Velocities"] false = None.
Proof.
  apply (ensemble_operation_raises Example.calculator Example.ensemble_ones
           "Na/Velocities" "Cl/Velocities" false).
  right. right. exists [Example.ones; Example.ones].
  split; [reflexivity|]. split; [discriminate | reflexivity].
Defined.

Lemma iadd_shape_mismatch (x y : Numpy.ndarray) :
  length y <> length x -> length y <> 1%nat -> Numpy.iadd x y = None.
Proof.
  intros H1 H2. unfold Numpy.iadd.
  replace (length y =? length x)%nat with false
    by (symmetry; apply Nat.eqb_neq; exact H1).
  destruct y as [|b [|c y]]; try reflexivity. simpl in H2. congruence.
Qed.

(** X4.  A window of the wrong length is rejected: when the particle at
    index 0 of the first tensor and the particle at index 1 of the second
    have [m] timesteps each, with [m >= 2] and [m] different from
    [data_range], [ensemble_operation] raises (the correlation of the first
    pair does not fit the array of [2 * data_range - 1] entries). *)
Theorem ensemble_operation_rejects_wrong_window
  (st : Calculator) (data : Ensemble) (ref0 ref1 : string)
  (a b0 b1 : Series) (P0 P1 : list Series) (same_species : bool) (m : nat) :
  dict_get data ref0 = Some (a :: P0) ->
  dict_get data ref1 = Some (b0 :: b1 :: P1) ->
  length a = m -> length b1 = m ->
  (2 <= m)%nat -> m <> data_range st ->
  ensemble_operation st data [ref0; ref1] same_species = None.
Proof.
  intros D0 D1 La Lb Hm Hne. rewrite ensemble_operation_loops.
  destruct (data_range st =? 0)%nat eqn:E; [reflexivity|].
  apply Nat.eqb_neq in E.
  rewrite (pair_loops_pairs same_species data [ref0; ref1] ref0 ref1
             (a :: P0) (b0 :: b1 :: P1)) by (reflexivity || assumption).
  assert (Hp : exists rest,
             correlated_pairs same_species (length (a :: P0))
               (length (b0 :: b1 :: P1)) = (0%nat, 1%nat) :: rest).
  { unfold correlated_pairs, py_range.
    cbn [length Nat.sub Nat.add seq flat_map filter Nat.eqb].
    rewrite andb_false_r. cbn [negb map app]. eauto. }
  destruct Hp as [rest ->]. cbn [for_each].
  unfold add_pair. cbn [fst snd nth]. rewrite pair_correlation_sum.
  destruct (pair_array_shape a b1) as [L _].
  - intros Ea. rewrite Ea in La. simpl in La. lia.
  - intros Eb. rewrite Eb in Lb. simpl in Lb. lia.
  - rewrite iadd_shape_mismatch; [reflexivity | |];
      rewrite L, ?zeros_length; lia.
Qed.

Lemma ensemble_operation_rejects_wrong_window_witness :
  ensemble_operation Example.calculator
    [("Na/Velocities", [Example.ones ++ Example.ones;
                        Example.ones ++ Example.ones])%list]
    ["Na/Velocities"; "Na/Velocities"] false = None.
Proof.
  apply (ensemble_operation_rejects_wrong_window Example.calculator
           [("Na/Velocities", [Example.ones ++ Example.ones;
                               Example.ones ++ Example.ones])%list]
           "Na/Velocities" "Na/Velocities"
           (Example.ones ++ Example.ones)%list
           (Example.ones ++ Example.ones)%list
           (Example.ones ++ Example.ones)%list
           [(Example.ones ++ Example.ones)%list] [] false 4).
  - reflexivity.
  - reflexivity.
  - reflexivity.
  - reflexivity.
  - lia.
  - simpl. lia.
Defined.

Lemma sum_all_zero (x : Numpy.ndarray) : all_zero x -> Numpy.sum x = 0.
Proof.
  intros H. induction H as [|v x Hv _ IH]; [reflexivity|].
  cbn [Numpy.sum fold_right]. fold (Numpy.sum x). rewrite Hv, IH. lra.
Qed.

Lemma zeros_all_zero (n : nat) : all_zero (Numpy.zeros n).
Proof. apply Forall_forall. intros v H. apply repeat_spec in H. exact H. Qed.

Lemma all_zero_skipn (k : nat) (x : Numpy.ndarray) :
  all_zero x -> all_zero (skipn k x).
Proof.
  intros H. unfold all_zero in *.
  rewrite <- (firstn_skipn k x) in H. apply Forall_app in H. apply H.
Qed.

Lemma all_zero_removelast (x : Numpy.ndarray) :
  all_zero x -> all_zero (removelast x).
Proof.
  intros H. rewrite removelast_firstn_len. unfold all_zero in *.
  set (n := pred (length x)).
  rewrite <- (firstn_skipn n x) in H. apply Forall_app in H. apply H.
Qed.

Lemma all_zero_zip_plus (x y : Numpy.ndarray) :
  all_zero x -> all_zero y -> all_zero (Numpy.zip_with Rplus x y).
Proof.
  intros Hx. revert y. induction Hx as [|a x Ha _ IH]; intros y Hy.
  - constructor.
  - destruct Hy as [|b y Hb Hy]; [constructor|].
    cbn [Numpy.zip_with]. constructor; [lra | apply IH; exact Hy].
Qed.

Lemma all_zero_zip_mult_r (x y : Numpy.ndarray) :
  all_zero y -> all_zero (Numpy.zip_with Rmult x y).
Proof.
  revert y. induction x as [|a x IH]; intros y Hy; [constructor|].
  destruct Hy as [|b y Hb Hy]; [constructor|].
  cbn [Numpy.zip_with]. constructor; [rewrite Hb; lra | apply IH; exact Hy].
Qed.

Lemma trapz_all_zero (y x : Numpy.ndarray) :
  length x = length y -> all_zero y -> Numpy.trapz y x = Some 0.
Proof.
  intros L H. unfold Numpy.trapz, Numpy.diff.
  rewrite broadcast_same_length
    by (rewrite !zip_with_length;
        rewrite ?length_skipn, ?removelast_length; lia).
  f_equal. apply sum_all_zero.
  apply Forall_map.
  eapply Forall_impl;
    [| apply all_zero_zip_mult_r, all_zero_zip_plus;
       [apply all_zero_skipn | apply all_zero_removelast]; exact H].
  intros v ->. lra.
Qed.

Lemma correlated_pairs_none (same_species : bool) (n0 n1 : nat) :
  (n0 = 0 \/ n1 <= 1)%nat -> correlated_pairs same_species n0 n1 = [].
Proof.
  intros H.
  destruct (correlated_pairs same_species n0 n1) as [|[i j] l] eqn:E;
    [reflexivity|].
  assert (Hin : In (i, j) (correlated_pairs same_species n0 n1))
    by (rewrite E; left; reflexivity).
  apply correlated_pairs_in in Hin. lia.
Qed.

(** X5.  When the first tensor holds no particle, or the second at most
    one, no pair is correlated at all: [ensemble_operation] stores an array
    of [data_range] zeros in [vacf] and appends the sample 0 to [sigma].
    In particular a combination of two species with one particle each
    yields zero correlation, whatever the velocities. *)
Theorem no_pair_gives_zero_correlation
  (st : Calculator) (data : Ensemble) (ref0 ref1 : string)
  (P0 P1 : list Series) (same_species : bool) :
  (1 <= data_range st)%nat ->
  length (time st) = data_range st ->
  dict_get data ref0 = Some P0 -> dict_get data ref1 = Some P1 ->
  (length P0 = 0 \/ length P1 <= 1)%nat ->
  exists st',
    ensemble_operation st data [ref0; ref1] same_species = Some st'
    /\ length (vacf st') = data_range st
    /\ all_zero (vacf st')
    /\ sigma st' = (sigma st ++ [0])%list.
Proof.
  intros Hdr Ht D0 D1 Hn. rewrite ensemble_operation_loops.
  destruct (data_range st =? 0)%nat eqn:E; [apply Nat.eqb_eq in E; lia|].
  rewrite (pair_loops_pairs same_species data [ref0; ref1] ref0 ref1 P0 P1)
    by (reflexivity || assumption).
  rewrite correlated_pairs_none by exact Hn. cbn [for_each].
  unfold fold_one_sided.
  assert (Z : all_zero (skipn (data_range st - 1)
                              (Numpy.zeros (2 * data_range st - 1))))
    by apply all_zero_skipn, zeros_all_zero.
  assert (L : length (skipn (data_range st - 1)
                            (Numpy.zeros (2 * data_range st - 1)))
              = data_range st)
    by (rewrite length_skipn, zeros_length; lia).
  rewrite iadd_same_length by (rewrite zeros_length; exact L).
  rewrite trapz_all_zero by (congruence || exact Z).
  eexists. split; [reflexivity|]. cbn [vacf sigma set_sigma set_vacf].
  split; [|split].
  - rewrite zip_with_length; rewrite zeros_length; congruence.
  - apply all_zero_zip_plus; [apply zeros_all_zero | exact Z].
  - reflexivity.
Qed.

Lemma no_pair_gives_zero_correlation_witness :
  exists st',
    ensemble_operation Example.calculator
      [("Na/Velocities", [Example.ones]); ("Cl/Velocities", [Example.twos])]
      ["Na/Velocities"; "Cl/Velocities"] false = Some st'
    /\ length (vacf st') = data_range Example.calculator
    /\ all_zero (vacf st')
    /\ sigma st' = (sigma Example.calculator ++ [0])%list.
Proof.
  apply (no_pair_gives_zero_correlation Example.calculator
           [("Na/Velocities", [Example.ones]);
            ("Cl/Velocities", [Example.twos])]
           "Na/Velocities" "Cl/Velocities"
           [Example.ones] [Example.twos] false).
  - simpl. lia.
  - reflexivity.
  - reflexivity.
  - reflexivity.
  - right. simpl. lia.
Defined.

(* ------------------------------------------------------------------ *)
(** ** The lag of the one-sided correlation *)

Lemma sum_app (x y : Numpy.ndarray) :
  Numpy.sum (x ++ y)%list = Numpy.sum x + Numpy.sum y.
Proof.
  unfold Numpy.sum. induction x as [|a x IH]; simpl.
  - lra.
  - rewrite IH. lra.
Qed.

Lemma sum_map_zero {A : Type} (f : A -> R) (l : list A) :
  (forall a, In a l -> f a = 0) -> Numpy.sum (map f l) = 0.
Proof.
  intros H. apply sum_all_zero, Forall_map, Forall_forall. exact H.
Qed.

Lemma sum_map_shift (f : nat -> R) (s m : nat) :
  Numpy.sum (map f (seq s m))
  = Numpy.sum (map (fun t => f (t + s)%nat) (seq 0 m)).
Proof.
  rewrite <- (Nat.add_0_l s) at 1. generalize 0%nat as z.
  induction m as [|m IH]; intros z; [reflexivity|].
  cbn [seq map Numpy.sum fold_right]. f_equal.
  change (S (z + s)) with (S z + s)%nat. apply IH.
Qed.

Lemma sum_map_const {A : Type} (c : R) (l : list A) :
  Numpy.sum (map (fun _ => c) l) = INR (length l) * c.
Proof.
  induction l as [|a l IH]; [cbn; lra|].
  cbn [map Numpy.sum fold_right]. fold (Numpy.sum (map (fun _ => c) l)).
  rewrite IH. change (length (a :: l)) with (S (length l)).
  rewrite S_INR. lra.
Qed.

Lemma correlate_entry_kept_lag (x y : Numpy.ndarray) (tau : nat) :
  length x = length y -> (tau < length y)%nat ->
  Numpy.correlate_entry x y (length y - 1 + tau)
  = Numpy.sum (map (fun t => nth (t + tau) x 0 * nth t y 0)
                   (seq 0 (length y - tau))).
Proof.
  intros L H. unfold Numpy.correlate_entry. rewrite L.
  assert (S : seq 0 (length y)
              = (seq 0 tau ++ seq tau (length y - tau))%list).
  { rewrite <- (Nat.add_0_l tau) at 2. rewrite <- seq_app.
    f_equal. lia. }
  rewrite S, map_app, sum_app.
  rewrite sum_map_zero.
  - rewrite sum_map_shift, Rplus_0_l. f_equal.
    apply map_ext. intros t.
    replace (length y - 1 + tau <=? t + tau + (length y - 1))%nat with true
      by (symmetry; apply Nat.leb_le; lia).
    replace (t + tau + (length y - 1) - (length y - 1 + tau))%nat with t
      by lia.
    reflexivity.
  - intros l Hl. apply in_seq in Hl.
    replace (length y - 1 + tau <=? l + (length y - 1))%nat with false
      by (symmetry; apply Nat.leb_gt; lia).
    reflexivity.
Qed.

Lemma correlate_entry_dropped_lag (x y : Numpy.ndarray) (tau : nat) :
  length x = length y -> (tau < length y)%nat ->
  Numpy.correlate_entry x y (length y - 1 - tau)
  = Numpy.sum (map (fun t => nth (t + tau) y 0 * nth t x 0)
                   (seq 0 (length x - tau))).
Proof.
  intros L H. unfold Numpy.correlate_entry. rewrite L.
  assert (S : seq 0 (length y)
              = (seq 0 (length y - tau) ++ seq (length y - tau) tau)%list).
  { rewrite <- (Nat.add_0_l (length y - tau)) at 2. rewrite <- seq_app.
    f_equal. lia. }
  rewrite S, map_app, sum_app.
  rewrite (sum_map_zero _ (seq (length y - tau) tau)).
  - rewrite Rplus_0_r. f_equal. apply map_ext. intros t.
    replace (length y - 1 - tau <=? t + (length y - 1))%nat with true
      by (symmetry; apply Nat.leb_le; lia).
    replace (t + (length y - 1) - (length y - 1 - tau))%nat with (t + tau)%nat
      by lia.
    apply Rmult_comm.
  - intros l Hl. apply in_seq in Hl.
    replace (length y - 1 - tau <=? l + (length y - 1))%nat with true
      by (symmetry; apply Nat.leb_le; lia).
    rewrite (nth_overflow y) by lia. lra.
Qed.

Lemma pair_entry_kept_lag (a b : Series) (tau : nat) :
  length a = length b -> (tau < length b)%nat ->
  pair_entry a b (length b - 1 + tau) = lagged_dot a b tau.
Proof.
  intros L H. unfold pair_entry, lagged_dot. f_equal.
  apply map_ext. intros idx.
  rewrite correlate_full_nth.
  - rewrite <- (column_length idx b).
    apply correlate_entry_kept_lag; rewrite !column_length; assumption.
  - intros E. apply (f_equal (@length R)) in E.
    rewrite column_length in E. simpl in E. lia.
  - intros E. apply (f_equal (@length R)) in E.
    rewrite column_length in E. simpl in E. lia.
  - rewrite !column_length. lia.
Qed.

Lemma pair_entry_dropped_lag (a b : Series) (tau : nat) :
  length a = length b -> (tau < length b)%nat ->
  pair_entry a b (length b - 1 - tau) = lagged_dot b a tau.
Proof.
  intros L H. unfold pair_entry, lagged_dot. f_equal.
  apply map_ext. intros idx.
  rewrite correlate_full_nth.
  - rewrite <- (column_length idx b), <- (column_length idx a).
    apply correlate_entry_dropped_lag; rewrite !column_length; assumption.
  - intros E. apply (f_equal (@length R)) in E.
    rewrite column_length in E. simpl in E. lia.
  - intros E. apply (f_equal (@length R)) in E.
    rewrite column_length in E. simpl in E. lia.
  - rewrite !column_length. lia.
Qed.

(** X6.  The orientation of the lag.  For two particle series [a] and [b]
    of [n] timesteps, entry [tau] of the one-sided correlation of the pair
    is the sum over dimensions and time of [a[t + tau] * b[t]]: the first
    series is taken [tau] steps ahead of the second.  The mirrored sums
    [a[t] * b[t + tau]] sit at entry [n - 1 - tau] of the full array, in
    the part that is dropped (for [tau > 0]). *)
Theorem one_sided_lag_orientation (a b : Series) (n tau : nat) :
  length a = n -> length b = n -> (tau < n)%nat ->
  exists c,
    pair_correlation a b = Some c
    /\ nth tau (skipn (n - 1) c) 0 = lagged_dot a b tau
    /\ nth (n - 1 - tau) c 0 = lagged_dot b a tau.
Proof.
  intros La Lb H. exists (pair_array a b).
  split; [apply pair_correlation_sum|].
  destruct (pair_array_shape a b) as [_ E].
  - intros Ea. rewrite Ea in La. simpl in La. lia.
  - intros Eb. rewrite Eb in Lb. simpl in Lb. lia.
  - rewrite nth_skipn, !E, <- Lb. split.
    + apply pair_entry_kept_lag; lia.
    + apply pair_entry_dropped_lag; lia.
Qed.

Lemma one_sided_lag_orientation_witness :
  exists c,
    pair_correlation Example.ones Example.twos = Some c
    /\ nth 1 (skipn (2 - 1) c) 0 = lagged_dot Example.ones Example.twos 1
    /\ nth (2 - 1 - 1) c 0 = lagged_dot Example.twos Example.ones 1.
Proof.
  apply (one_sided_lag_orientation Example.ones Example.twos 2 1).
  - reflexivity.
  - reflexivity.
  - lia.
Defined.

Lemma lagged_dot_constant (v w : Vec3) (n tau : nat) :
  (tau < n)%nat ->
  lagged_dot (repeat v n) (repeat w n) tau = INR (n - tau) * dot3 v w.
Proof.
  intros H. unfold lagged_dot, dot3.
  cbn [py_range Nat.sub seq map Numpy.sum fold_right].
  rewrite repeat_length.
  assert (E : forall idx,
             Numpy.sum
               (map (fun t => nth (t + tau) (column idx (repeat v n)) 0
                              * nth t (column idx (repeat w n)) 0)
                    (seq 0 (n - tau)))
             = INR (n - tau) * (component idx v * component idx w)).
  { intros idx.
    transitivity
      (Numpy.sum (map (fun _ : nat => component idx v * component idx w)
                      (seq 0 (n - tau))));
      [|rewrite sum_map_const, length_seq; reflexivity].
    f_equal.
    apply map_ext_in. intros t Ht. apply in_seq in Ht.
    unfold column. rewrite !map_repeat.
    rewrite (nth_indep (repeat (component idx v) n) 0 (component idx v))
      by (rewrite repeat_length; lia).
    rewrite (nth_indep (repeat (component idx w) n) 0 (component idx w))
      by (rewrite repeat_length; lia).
    rewrite !nth_repeat. reflexivity. }
  rewrite !E. ring.
Qed.

(** X7.  Series of constant velocity.  When one particle moves with the
    constant velocity [v] and another with [w] over [n] timesteps, entry
    [tau] of their one-sided correlation is [(n - tau) * (v . w)]: the
    correlation of constant velocities falls off linearly with the lag and
    is not constant.  For an ensemble of two such particles of one species
    this is what [ensemble_operation] stores in [vacf]. *)
Theorem constant_velocity_correlation (v w : Vec3) (st : Calculator)
  (data : Ensemble) (ref : string) (tau : nat) :
  (tau < data_range st)%nat ->
  length (time st) = data_range st ->
  dict_get data ref
  = Some [repeat v (data_range st); repeat w (data_range st)] ->
  (exists c,
      pair_correlation (repeat v (data_range st)) (repeat w (data_range st))
      = Some c
      /\ nth tau (skipn (data_range st - 1) c) 0
         = INR (data_range st - tau) * dot3 v w)
  /\ exists st',
      ensemble_operation st data [ref; ref] true = Some st'
      /\ nth tau (vacf st') 0 = INR (data_range st - tau) * dot3 v w.
Proof.
  intros H Ht D.
  set (n := data_range st) in *.
  assert (Lv : length (repeat v n) = n) by apply repeat_length.
  assert (Lw : length (repeat w n) = n) by apply repeat_length.
  assert (Nv : repeat v n <> [])
    by (intros E; rewrite E in Lv; simpl in Lv; lia).
  assert (Nw : repeat w n <> [])
    by (intros E; rewrite E in Lw; simpl in Lw; lia).
  assert (K : nth (n - 1 + tau) (pair_array (repeat v n) (repeat w n)) 0
              = INR (n - tau) * dot3 v w).
  { destruct (pair_array_shape _ _ Nv Nw) as [_ ->].
    replace (n - 1 + tau)%nat with (length (repeat w n) - 1 + tau)%nat
      by (rewrite Lw; reflexivity).
    rewrite pair_entry_kept_lag by (rewrite ?Lv, ?Lw; lia).
    apply lagged_dot_constant. exact H. }
  split.
  - exists (pair_array (repeat v n) (repeat w n)).
    split; [apply pair_correlation_sum|]. rewrite nth_skipn. exact K.
  - assert (W : well_shaped n [repeat v n; repeat w n])
      by (repeat constructor; assumption).
    assert (Hdr : (1 <= n)%nat) by lia.
    destruct (pair_loops_shaped true data ref ref _ _ n Hdr D D W W)
      as [_ Hlen].
    destruct (fold_one_sided_shaped st _ Hdr Ht Hlen) as (x & _ & Hfold).
    eexists. split.
    + rewrite (ensemble_operation_shaped st data ref ref _ _ true
                 Hdr Ht D D W W).
      exact Hfold.
    + cbn [vacf set_sigma set_vacf]. fold n.
      rewrite nth_zip_with_plus
        by (rewrite zeros_length, length_skipn; fold n; lia).
      rewrite nth_zeros, nth_skipn, Rplus_0_l.
      rewrite full_correlation_entry by assumption.
      cbn [correlated_pairs length py_range Nat.sub Nat.add seq flat_map
             filter map app negb andb Nat.eqb fst snd nth Numpy.sum
             fold_right].
      rewrite Rplus_0_r.
      destruct (pair_array_shape _ _ Nv Nw) as [_ <-]. exact K.
Qed.

Lemma constant_velocity_correlation_witness :
  (exists c,
      pair_correlation (repeat (1, 0, 0) (data_range Example.calculator))
                       (repeat (1, 0, 0) (data_range Example.calculator))
      = Some c
      /\ nth 1 (skipn (data_range Example.calculator - 1) c) 0
         = INR (data_range Example.calculator - 1)
           * dot3 (1, 0, 0) (1, 0, 0))
  /\ exists st',
      ensemble_operation Example.calculator Example.ensemble_ones
        ["Na/Velocities"; "Na/Velocities"] true = Some st'
      /\ nth 1 (vacf st') 0
         = INR (data_range Example.calculator - 1)
           * dot3 (1, 0, 0) (1, 0, 0).
Proof.
  apply (constant_velocity_correlation (1, 0, 0) (1, 0, 0)
           Example.calculator Example.ensemble_ones "Na/Velocities" 1).
  - simpl. lia.
  - reflexivity.
  - reflexivity.
Defined.

(* ------------------------------------------------------------------ *)
(** ** The combinations [__call__] enumerates *)

Lemma combinations_length (l : list string) :
  (2 * length (combinations_with_replacement2 l)
   = length l * (length l + 1))%nat.
Proof.
  induction l as [|a l IH]; [reflexivity|].
  cbn [combinations_with_replacement2].
  rewrite length_app, length_map. cbn [length]. lia.
Qed.

Lemma combinations_members (l : list string) (a b : string) :
  In (a, b) (combinations_with_replacement2 l) -> In a l /\ In b l.
Proof.
  induction l as [|x l IH]; [intros []|].
  cbn [combinations_with_replacement2]. intros H.
  apply in_app_or in H. destruct H as [H | H].
  - apply in_map_iff in H. destruct H as (y & E & Hy).
    injection E as <- <-. split; [left; reflexivity | exact Hy].
  - destruct (IH H). split; right; assumption.
Qed.

Lemma combinations_order (l : list string) (a b : string) :
  In (a, b) (combinations_with_replacement2 l) <->
  exists l1 l2, l = (l1 ++ a :: l2)%list /\ In b (a :: l2).
Proof.
  induction l as [|x l IH].
  - split; [intros [] | intros (l1 & l2 & E & _)].
    destruct l1; discriminate.
  - cbn [combinations_with_replacement2]. rewrite in_app_iff. split.
    + intros [H | H].
      * apply in_map_iff in H. destruct H as (y & E & Hy).
        injection E as <- <-. exists [], l. split; [reflexivity | exact Hy].
      * apply IH in H. destruct H as (l1 & l2 & -> & Hb).
        exists (x :: l1), l2. split; [reflexivity | exact Hb].
    + intros (l1 & l2 & E & Hb). destruct l1 as [|y l1].
      * injection E as <- <-. left. apply in_map. exact Hb.
      * injection E as <- ->. right. apply IH. eauto.
Qed.

Lemma combinations_cover (l : list string) (a b : string) :
  In a l -> In b l ->
  In (a, b) (combinations_with_replacement2 l)
  \/ In (b, a) (combinations_with_replacement2 l).
Proof.
  intros Ha Hb. apply in_split in Ha. destruct Ha as (l1 & l2 & ->).
  apply in_app_or in Hb. destruct Hb as [Hb | Hb].
  - right. apply in_split in Hb. destruct Hb as (m1 & m2 & ->).
    apply combinations_order. exists m1, (m2 ++ a :: l2)%list.
    split; [rewrite <- app_assoc; reflexivity|].
    right. apply in_or_app. right. left. reflexivity.
  - left. apply combinations_order. eauto.
Qed.

(** X8.  [__call__] with a list of [n] species stores [n * (n + 1) / 2]
    combinations; both members of a combination are requested species; and
    any two requested species (equal or not) appear together in a
    combination, in one order or the other. *)
Theorem call_enumerates_combinations (st : Calculator) (l : list string)
  (dr ct : nat) (ir : option nat) (tau : Numpy.ndarray) :
  (2 * length (combinations (call st (Some l) dr ct ir tau))
   = length l * (length l + 1))%nat
  /\ (forall a b, In (a, b) (combinations (call st (Some l) dr ct ir tau)) ->
                  In a l /\ In b l)
  /\ (forall a b, In a l -> In b l ->
                  In (a, b) (combinations (call st (Some l) dr ct ir tau))
                  \/ In (b, a) (combinations (call st (Some l) dr ct ir tau))).
Proof.
  cbn [combinations call]. split; [apply combinations_length|].
  split; [apply combinations_members | apply combinations_cover].
Qed.

(** X9.  When the requested species are pairwise different, no
    combination is stored twice and no combination of two different species
    is stored in both orders: each unordered pair is processed once. *)
Theorem distinct_species_give_distinct_combinations (st : Calculator)
  (l : list string) (dr ct : nat) (ir : option nat) (tau : Numpy.ndarray) :
  NoDup l ->
  NoDup (combinations (call st (Some l) dr ct ir tau))
  /\ (forall a b,
        In (a, b) (combinations (call st (Some l) dr ct ir tau)) ->
        In (b, a) (combinations (call st (Some l) dr ct ir tau)) ->
        a = b).
Proof.
  cbn [combinations call]. intros H.
  induction H as [|x l Hx Hl [IH1 IH2]]; [split; [constructor | intros ? ? []]|].
  cbn [combinations_with_replacement2]. split.
  - apply NoDup_app.
    + apply Injective_map_NoDup; [|constructor; assumption].
      intros y z E. injection E. auto.
    + exact IH1.
    + intros [a b] H1 H2. apply in_map_iff in H1.
      destruct H1 as (y & E & _). injection E as <- <-.
      apply combinations_members in H2. destruct H2. contradiction.
  - intros a b H1 H2. apply in_app_or in H1, H2.
    destruct H1 as [H1 | H1], H2 as [H2 | H2].
    + apply in_map_iff in H1, H2.
      destruct H1 as (y & E1 & _), H2 as (z & E2 & _).
      injection E1 as <- _. injection E2 as <- _. reflexivity.
    + apply in_map_iff in H1. destruct H1 as (y & E1 & _).
      injection E1 as <- _.
      apply combinations_members in H2. destruct H2. contradiction.
    + apply in_map_iff in H2. destruct H2 as (y & E2 & _).
      injection E2 as <- _.
      apply combinations_members in H1. destruct H1. contradiction.
    + apply IH2; assumption.
Qed.

Lemma distinct_species_give_distinct_combinations_witness :
  NoDup (combinations (call Example.calculator (Some ["Na"; "Cl"]) 2 1 None
                         [0; 1]))
  /\ (forall a b,
        In (a, b) (combinations (call Example.calculator (Some ["Na"; "Cl"])
                                   2 1 None [0; 1])) ->
        In (b, a) (combinations (call Example.calculator (Some ["Na"; "Cl"])
                                   2 1 None [0; 1])) ->
        a = b).
Proof.
  apply (distinct_species_give_distinct_combinations Example.calculator
           ["Na"; "Cl"] 2 1 None [0; 1]).
  constructor; [simpl; intros [E | []]; discriminate|].
  constructor; [simpl; intros [] | constructor].
Defined.

(* ------------------------------------------------------------------ *)
(** ** Where the prefactor cannot be computed *)

Lemma atom_scale_sym (e : Experiment) (a b : string) :
  atom_scale e (a, b) = atom_scale e (b, a).
Proof.
  unfold atom_scale. cbn [fst snd]. rewrite (String.eqb_sym b a).
  destruct (String.eqb a b) eqn:E.
  - apply String.eqb_eq in E. subst b. reflexivity.
  - destruct (dict_get (species e) a), (dict_get (species e) b);
      try reflexivity.
    f_equal. apply Z.mul_comm.
Qed.

(** X10.  The prefactor does not depend on the order of the two species of
    a combination: [(a, b)] and [(b, a)] get the same value, and the
    computation raises for the one exactly when it raises for the other. *)
Theorem prefactor_is_symmetric (e : Experiment) (dr : nat) (a b : string)
  (st : Calculator) :
  prefactor_value e dr (a, b) = prefactor_value e dr (b, a)
  /\ (calculate_prefactor st (a, b) = None <->
      calculate_prefactor st (b, a) = None).
Proof.
  assert (P : forall e' dr', prefactor_value e' dr' (a, b)
                             = prefactor_value e' dr' (b, a)).
  { intros e' dr'. unfold prefactor_value. rewrite atom_scale_sym.
    reflexivity. }
  split; [apply P|].
  assert (C : forall c, calculate_prefactor st c = None
                        <-> prefactor_value (experiment st) (data_range st) c
                            = None).
  { intros c. unfold calculate_prefactor, prefactor_value, atom_scale.
    destruct (dict_get _ (fst c)); [|tauto].
    destruct (dict_get _ (snd c)); [|tauto].
    destruct (Req_dec_T _ _); [tauto|]. split; discriminate. }
  rewrite !C, P. tauto.
Qed.

Section PrefactorFailures.

Variable Batch : Type.
Variable get_batch_dataset : list string -> list Batch.
Variable get_ensemble_dataset : Batch -> list string -> list Ensemble.
Variable dependencies_met : bool.

(** X11.  With [data_range = 1] the denominator of the prefactor holds the
    factor [data_range - 1 = 0]: [_calculate_prefactor] raises for every
    combination, and a run over at least one combination raises. *)
Theorem data_range_one_cannot_run (st : Calculator) :
  data_range st = 1%nat ->
  (forall c, calculate_prefactor st c = None)
  /\ (combinations st <> [] ->
      run_calculator Batch get_batch_dataset get_ensemble_dataset
        dependencies_met st = None).
Proof.
  intros H.
  assert (P : forall c, prefactor_value (experiment st) (data_range st) c
                        = None).
  { intros c. unfold prefactor_value.
    destruct (atom_scale _ c) as [scale|]; [|reflexivity].
    rewrite H. destruct (Req_dec_T _ _) as [_|N]; [reflexivity|].
    exfalso. apply N. cbn. ring. }
  split.
  - intros c. specialize (P c). revert P.
    unfold calculate_prefactor, prefactor_value, atom_scale.
    destruct (dict_get _ (fst c)); [|reflexivity].
    destruct (dict_get _ (snd c)); [|reflexivity].
    destruct (Req_dec_T _ _); [reflexivity | discriminate].
  - intros Hc. unfold run_calculator.
    destruct dependencies_met; [|reflexivity].
    destruct (combinations st) as [|c cs]; [congruence|].
    cbn [for_each]. rewrite process_combination_outcome, P.
    destruct (combination_outcomes _ _ _ _ _ _ c); reflexivity.
Qed.

(** X12.  A species with no particle or with a single particle cannot be
    combined with itself: the particle-count factor [n * (n - 1)] is zero,
    so processing the combination raises at the prefactor, after all its
    ensembles have been correlated. *)
Theorem single_particle_species_cannot_self_combine (st : Calculator)
  (s : string) (n : Z) :
  dict_get (species (experiment st)) s = Some n ->
  (n = 0 \/ n = 1)%Z ->
  calculate_prefactor st (s, s) = None
  /\ process_combination Batch get_batch_dataset get_ensemble_dataset
       st (s, s) = None.
Proof.
  intros D Hn.
  assert (P : prefactor_value (experiment st) (data_range st) (s, s) = None).
  { unfold prefactor_value, atom_scale. cbn [fst snd].
    rewrite D, String.eqb_refl.
    destruct (Req_dec_T _ _) as [_|N]; [reflexivity|].
    exfalso. apply N.
    replace (n * (n - 1))%Z with 0%Z by (destruct Hn; subst; reflexivity).
    ring. }
  split.
  - revert P. unfold calculate_prefactor, prefactor_value, atom_scale.
    cbn [fst snd]. rewrite D.
    destruct (Req_dec_T _ _); [reflexivity | discriminate].
  - rewrite process_combination_outcome, P.
    destruct (combination_outcomes _ _ _ _ _ _ (s, s)); reflexivity.
Qed.

End PrefactorFailures.

Lemma data_range_one_cannot_run_witness :
  (forall c,
      calculate_prefactor
        (call Example.calculator (Some ["Na"]) 1 1 None [0]) c = None)
  /\ (combinations (call Example.calculator (Some ["Na"]) 1 1 None [0]) <> [] ->
      run_calculator (list Ensemble) Example.batches Example.ensembles true
        (call Example.calculator (Some ["Na"]) 1 1 None [0]) = None).
Proof.
  apply (data_range_one_cannot_run (list Ensemble) Example.batches
           Example.ensembles true
           (call Example.calculator (Some ["Na"]) 1 1 None [0])).
  reflexivity.
Defined.

Lemma single_particle_species_cannot_self_combine_witness :
  calculate_prefactor
    (call (init {| species := [("Ar", 1%Z)];
                   units_length := 1; units_time := 1 |}
                Example.manager 1 "Velocities")
          (Some ["Ar"]) 2 1 None [0; 1]) ("Ar", "Ar") = None
  /\ process_combination (list Ensemble) Example.batches Example.ensembles
       (call (init {| species := [("Ar", 1%Z)];
                      units_length := 1; units_time := 1 |}
                   Example.manager 1 "Velocities")
             (Some ["Ar"]) 2 1 None [0; 1]) ("Ar", "Ar") = None.
Proof.
  apply (single_particle_species_cannot_self_combine (list Ensemble)
           Example.batches Example.ensembles
           (call (init {| species := [("Ar", 1%Z)];
                          units_length := 1; units_time := 1 |}
                       Example.manager 1 "Velocities")
                 (Some ["Ar"]) 2 1 None [0; 1]) "Ar" 1).
  - reflexivity.
  - right. reflexivity.
Defined.

(* ------------------------------------------------------------------ *)
(** ** More on the two statistics *)

Lemma sum_scaled (p : R) (x : Numpy.ndarray) :
  Numpy.sum (map (Rmult p) x) = p * Numpy.sum x.
Proof.
  unfold Numpy.sum. induction x as [|a x IH]; simpl; [lra|].
  rewrite IH. lra.
Qed.

Lemma sum_nonnegative (x : Numpy.ndarray) :
  Forall (fun v => 0 <= v) x -> 0 <= Numpy.sum x.
Proof.
  unfold Numpy.sum. intros H. induction H as [|v x Hv _ IH]; simpl; lra.
Qed.

Lemma squared_deviations_nonnegative (m : R) (x : Numpy.ndarray) :
  0 <= Numpy.sum (map (fun v => (v - m) ^ 2) x).
Proof.
  apply sum_nonnegative, Forall_map, Forall_forall. intros v _.
  apply pow2_ge_0.
Qed.

Lemma population_standard_deviation_scaled (p : R) (x : Numpy.ndarray) :
  x <> [] ->
  population_standard_deviation (map (Rmult p) x)
  = Rabs p * population_standard_deviation x.
Proof.
  intros H. unfold population_standard_deviation.
  rewrite length_map, sum_scaled, map_map.
  assert (N : 0 < INR (length x))
    by (apply lt_0_INR; destruct x; [congruence | simpl; lia]).
  set (m := Numpy.sum x / INR (length x)).
  replace (p * Numpy.sum x / INR (length x)) with (p * m)
    by (unfold m; field; lra).
  rewrite (map_ext (fun v => (p * v - p * m) ^ 2)
                   (fun v => Rmult (Rsqr p) ((v - m) ^ 2)))
    by (intros v; unfold Rsqr; ring).
  rewrite <- (map_map (fun v => (v - m) ^ 2) (Rmult (Rsqr p))), sum_scaled.
  replace (Rsqr p * Numpy.sum (map (fun v => (v - m) ^ 2) x) / INR (length x))
    with (Rsqr p * (Numpy.sum (map (fun v => (v - m) ^ 2) x) / INR (length x)))
    by (field; lra).
  rewrite sqrt_mult_alt by apply Rle_0_sqr.
  rewrite sqrt_Rsqr_abs. reflexivity.
Qed.

(** X13.  The prefactor scales the statistics as expected: for a prefactor
    [p] and a non-empty [sigma], the queued mean is [p] times the mean of
    the raw samples and the queued standard error is [|p|] times their
    standard error (divisor [n]); the standard error is never negative. *)
Theorem statistics_scale_with_prefactor (st : Calculator)
  (c : string * string) (p : R) :
  prefactor st = Some p -> sigma st <> [] ->
  exists rec e,
    post_operation_processes st c = Some (queue_data st rec [fst c; snd c])
    /\ diffusion_coefficient rec
       = Numpy.Num (p * (Numpy.sum (sigma st) / INR (length (sigma st))))
    /\ uncertainty rec = Numpy.Num e
    /\ e = Rabs p * (population_standard_deviation (sigma st)
                     / sqrt (INR (length (sigma st))))
    /\ 0 <= e.
Proof.
  intros Hp Hs. destruct (statistics_nonempty p (sigma st) Hs) as [Hm Hu].
  assert (N : 0 < INR (length (sigma st)))
    by (apply lt_0_INR; destruct (sigma st); [congruence | simpl; lia]).
  pose proof (sqrt_lt_R0 _ N) as Hq.
  eexists. eexists. unfold post_operation_processes. rewrite Hp.
  split; [reflexivity|]. cbn [diffusion_coefficient uncertainty].
  split; [|split; [exact Hu|]].
  - fold (scaled_mean p (sigma st)). rewrite Hm, length_map, sum_scaled.
    f_equal. field. lra.
  - rewrite length_map, population_standard_deviation_scaled by exact Hs.
    split; [field; lra|].
    apply Rmult_le_pos;
      [|left; apply Rinv_0_lt_compat; exact Hq].
    apply Rmult_le_pos; [apply Rabs_pos|].
    unfold population_standard_deviation. apply sqrt_pos.
Qed.

Lemma statistics_scale_with_prefactor_witness :
  exists rec e,
    post_operation_processes Example.two_samples ("Na", "Na")
    = Some (queue_data Example.two_samples rec
              [fst ("Na", "Na"); snd ("Na", "Na")])
    /\ diffusion_coefficient rec
       = Numpy.Num (1 * (Numpy.sum (sigma Example.two_samples)
                         / INR (length (sigma Example.two_samples))))
    /\ uncertainty rec = Numpy.Num e
    /\ e = Rabs 1 * (population_standard_deviation (sigma Example.two_samples)
                     / sqrt (INR (length (sigma Example.two_samples))))
    /\ 0 <= e.
Proof.
  apply (statistics_scale_with_prefactor Example.two_samples ("Na", "Na") 1).
  - reflexivity.
  - discriminate.
Defined.

Lemma sum_repeat (c : R) (n : nat) :
  Numpy.sum (repeat c n) = INR n * c.
Proof.
  induction n as [|n IH]; [cbn; lra|].
  cbn [repeat]. change (Numpy.sum (c :: repeat c n))
    with (c + Numpy.sum (repeat c n)).
  rewrite IH, S_INR. lra.
Qed.

Lemma population_standard_deviation_constant (c : R) (n : nat) :
  population_standard_deviation (repeat c (S n)) = 0.
Proof.
  unfold population_standard_deviation.
  rewrite repeat_length, sum_repeat.
  assert (N : 0 < INR (S n)) by (apply lt_0_INR; lia).
  replace (INR (S n) * c / INR (S n)) with c by (field; lra).
  rewrite map_repeat, sum_repeat.
  replace (INR (S n) * (c - c) ^ 2 / INR (S n)) with 0 by (field; lra).
  apply sqrt_0.
Qed.

(** X14.  A combination with a single ensemble gets a number, not a nan,
    as its uncertainty: when [sigma] holds one sample [x],
    [_post_operation_processes] queues the scaled sample [p * x] as mean
    and 0 as standard error (the deviation of the one sample from its own
    mean, over the square root of 1). *)
Theorem single_sample_has_zero_error (st : Calculator)
  (c : string * string) (p x : R) :
  prefactor st = Some p -> sigma st = [x] ->
  exists rec,
    post_operation_processes st c = Some (queue_data st rec [fst c; snd c])
    /\ diffusion_coefficient rec = Numpy.Num (p * x)
    /\ uncertainty rec = Numpy.Num 0.
Proof.
  intros Hp Hs.
  assert (Hne : sigma st <> []) by (rewrite Hs; discriminate).
  destruct (statistics_nonempty p (sigma st) Hne) as [Hm Hu].
  eexists. unfold post_operation_processes. rewrite Hp.
  split; [reflexivity|]. cbn [diffusion_coefficient uncertainty]. split.
  - fold (scaled_mean p (sigma st)). rewrite Hm, Hs.
    cbn [map length INR Numpy.sum fold_right]. f_equal. field.
  - fold (scaled_standard_error p (sigma st)). rewrite Hu, Hs.
    change (map (Rmult p) [x]) with (repeat (p * x) 1).
    rewrite population_standard_deviation_constant.
    f_equal. unfold Rdiv. apply Rmult_0_l.
Qed.

Lemma single_sample_has_zero_error_witness :
  exists rec,
    post_operation_processes
      (set_sigma (set_prefactor Example.calculator 1) [3]) ("Na", "Na")
    = Some (queue_data (set_sigma (set_prefactor Example.calculator 1) [3])
              rec [fst ("Na", "Na"); snd ("Na", "Na")])
    /\ diffusion_coefficient rec = Numpy.Num (1 * 3)
    /\ uncertainty rec = Numpy.Num 0.
Proof.
  apply (single_sample_has_zero_error
           (set_sigma (set_prefactor Example.calculator 1) [3])
           ("Na", "Na") 1 3).
  - reflexivity.
  - reflexivity.
Defined.

(* ------------------------------------------------------------------ *)
(** ** When a run returns, and what a combination without ensembles
    reports *)

Section RunOutcome.

Variable Batch : Type.
Variable get_batch_dataset : list string -> list Batch.
Variable get_ensemble_dataset : Batch -> list string -> list Ensemble.
Variable dependencies_met : bool.

Lemma combinations_loop_returns (cs : list (string * string))
  (st : Calculator) :
  (exists st',
      for_each (process_combination Batch get_batch_dataset
                  get_ensemble_dataset) cs st = Some st')
  <-> Forall
        (fun c =>
           combination_outcomes Batch get_batch_dataset get_ensemble_dataset
             (data_range st) (time st) (loaded_property st) c <> None
           /\ prefactor_value (experiment st) (data_range st) c <> None)
        cs.
Proof.
  revert st. induction cs as [|c cs IH]; intros st.
  - split; [constructor | intros _; eexists; reflexivity].
  - cbn [for_each]. rewrite process_combination_outcome. split.
    + intros [st' H].
      destruct (combination_outcomes _ _ _ _ _ _ c) as [os|] eqn:Eo;
        [|discriminate].
      destruct (prefactor_value _ _ c) as [p|] eqn:Ep; [|discriminate].
      constructor; [split; congruence|].
      apply (IH (combination_state st c os p)). eauto.
    + intros H. inversion H as [|? ? [Ho Hp] Hcs]; subst.
      destruct (combination_outcomes _ _ _ _ _ _ c) as [os|];
        [|congruence].
      destruct (prefactor_value _ _ c) as [p|]; [|congruence].
      apply (IH (combination_state st c os p)). exact Hcs.
Qed.

(** X15.  A run returns exactly when the dependency check passes and, for
    every combination, all its ensembles can be correlated and integrated
    and its prefactor can be computed.  Whether it returns depends on the
    settings and the data only, not on what [vacf], [sigma] or the queue
    held before; one failing combination makes the whole run raise. *)
Theorem run_returns_iff (st : Calculator) :
  (exists st',
      run_calculator Batch get_batch_dataset get_ensemble_dataset
        dependencies_met st = Some st')
  <-> dependencies_met = true
      /\ Forall
           (fun c =>
              combination_outcomes Batch get_batch_dataset
                get_ensemble_dataset (data_range st) (time st)
                (loaded_property st) c <> None
              /\ prefactor_value (experiment st) (data_range st) c <> None)
           (combinations st).
Proof.
  unfold run_calculator. destruct dependencies_met.
  - rewrite combinations_loop_returns. tauto.
  - split; [intros [st' H]; discriminate | intros [H _]; discriminate].
Qed.

(** X16.  A combination without ensembles reports the correlation series
    of the combination before it: when a combination with at least one
    ensemble is followed by one that has none, both queued records carry
    the array of the last ensemble of the first. *)
Theorem empty_combination_reports_previous_series
  (st st' : Calculator) (cy cx : string * string)
  (os : list (Numpy.ndarray * R)) :
  for_each (process_combination Batch get_batch_dataset get_ensemble_dataset)
    [cy; cx] st = Some st' ->
  combination_outcomes Batch get_batch_dataset get_ensemble_dataset
    (data_range st) (time st) (loaded_property st) cy = Some os ->
  os <> [] ->
  combination_ensembles Batch get_batch_dataset get_ensemble_dataset cx = [] ->
  exists ry rx,
    queue st' = (queue st ++ [(fst ry, snd ry); (fst rx, snd rx)])%list
    /\ fst ry = [fst cy; snd cy] /\ fst rx = [fst cx; snd cx]
    /\ result_vacf (snd ry) = last (map fst os) []
    /\ result_vacf (snd rx) = last (map fst os) [].
Proof.
  intros H Ho Hne He. cbn [for_each] in H.
  rewrite process_combination_outcome, Ho in H.
  destruct (prefactor_value _ _ cy) as [p|]; [|discriminate].
  rewrite process_combination_outcome in H.
  unfold combination_outcomes at 1 in H. rewrite He in H. cbn [traverse] in H.
  destruct (prefactor_value _ _ cx) as [q|]; [|discriminate].
  injection H as <-.
  eexists (_, _). eexists (_, _). cbn [fst snd].
  split; [cbn [queue combination_state]; rewrite <- app_assoc; reflexivity|].
  split; [reflexivity|]. split; [reflexivity|].
  cbn [result_vacf vacf combination_state map last].
  split; apply last_default_irrelevant; destruct os; congruence || discriminate.
Qed.

End RunOutcome.

Lemma example2_run :
  for_each (process_combination (list Ensemble) Example2.batches
              Example.ensembles)
    [("Na", "Na"); ("Cl", "Cl")] Example2.calculator
  = Some Example2.after_chlorine.
Proof.
  cbn [for_each]. rewrite process_combination_outcome.
  change (data_range Example2.calculator) with 2%nat.
  change (time Example2.calculator) with [0; 1].
  change (loaded_property Example2.calculator) with "Velocities".
  change (experiment Example2.calculator) with Example2.salt.
  assert (O : combination_outcomes (list Ensemble) Example2.batches
                Example.ensembles 2 [0; 1] "Velocities" ("Na", "Na")
              = Some Example.outcomes)
    by (cbn; unfold Example.outcomes; by_arithmetic).
  assert (P : forall s, (s = "Na" \/ s = "Cl") ->
                        prefactor_value Example2.salt 2 (s, s) = Some (1 / 6)).
  { intros s [-> | ->]; unfold prefactor_value; cbn;
      (destruct (Req_dec_T _ _) as [E|E]; [exfalso; lra|]); by_arithmetic. }
  rewrite O, P by (left; reflexivity).
  fold Example2.after_sodium.
  rewrite process_combination_outcome.
  change (experiment Example2.after_sodium) with Example2.salt.
  change (data_range Example2.after_sodium) with 2%nat.
  rewrite P by (right; reflexivity). reflexivity.
Qed.

Lemma empty_combination_reports_previous_series_witness :
  exists ry rx,
    queue Example2.after_chlorine
    = (queue Example2.calculator
       ++ [(fst ry, snd ry); (fst rx, snd rx)])%list
    /\ fst ry = [fst ("Na", "Na"); snd ("Na", "Na")]
    /\ fst rx = [fst ("Cl", "Cl"); snd ("Cl", "Cl")]
    /\ result_vacf (snd ry) = last (map fst Example.outcomes) []
    /\ result_vacf (snd rx) = last (map fst Example.outcomes) [].
Proof.
  apply (empty_combination_reports_previous_series (list Ensemble)
           Example2.batches Example.ensembles
           Example2.calculator Example2.after_chlorine
           ("Na", "Na") ("Cl", "Cl") Example.outcomes).
  - exact example2_run.
  - cbn. unfold Example.outcomes. by_arithmetic.
  - discriminate.
  - reflexivity.
Defined.

(* ------------------------------------------------------------------ *)
(** ** [plot_data]: where the span is drawn *)

Lemma traverse_all_some {A B : Type} (f : A -> option B) (g : A -> B)
  (l : list A) :
  Forall (fun a => f a = Some (g a)) l -> traverse f l = Some (map g l).
Proof.
  intros H. induction H as [|a l Ha _ IH]; [reflexivity|].
  cbn [traverse map]. rewrite Ha, IH. reflexivity.
Qed.

Lemma traverse_one_none {A B : Type} (f : A -> option B) (l : list A)
  (a : A) :
  In a l -> f a = None -> traverse f l = None.
Proof.
  intros Hin Ha. induction l as [|b l IH]; [destruct Hin|].
  cbn [traverse]. destruct Hin as [-> | Hin].
  - rewrite Ha. reflexivity.
  - destruct (f b); [|reflexivity]. rewrite (IH Hin). reflexivity.
Qed.

Lemma py_getitem_span (x : list R) (ir : nat) :
  (1 <= length x)%nat -> (ir <= length x)%nat ->
  py_getitem x (Z.of_nat ir - 1) = Some (nth (span_index ir (length x)) x 0).
Proof.
  intros Hn Hir. unfold py_getitem, span_index.
  destruct (ir =? 0)%nat eqn:E.
  - apply Nat.eqb_eq in E. subst ir. cbn [Z.of_nat Z.sub Z.add Z.opp].
    replace ((0 <=? -1) && (-1 <? Z.of_nat (length x)))%Z with false
      by reflexivity.
    replace ((- Z.of_nat (length x) <=? -1) && (-1 <? 0))%Z with true
      by (symmetry; apply andb_true_iff; split;
          [apply Z.leb_le; lia | reflexivity]).
    replace (Z.to_nat (Z.of_nat (length x) + -1)) with (length x - 1)%nat
      by lia.
    apply nth_error_nth'. lia.
  - apply Nat.eqb_neq in E.
    replace ((0 <=? Z.of_nat ir - 1)
             && (Z.of_nat ir - 1 <? Z.of_nat (length x)))%Z with true
      by (symmetry; apply andb_true_iff; split;
          [apply Z.leb_le; lia | apply Z.ltb_lt; lia]).
    replace (Z.to_nat (Z.of_nat ir - 1)) with (ir - 1)%nat by lia.
    apply nth_error_nth'. lia.
Qed.

Lemma py_getitem_out_of_range (x : list R) (ir : nat) :
  (length x < ir)%nat -> py_getitem x (Z.of_nat ir - 1) = None.
Proof.
  intros H. unfold py_getitem.
  replace ((0 <=? Z.of_nat ir - 1)
           && (Z.of_nat ir - 1 <? Z.of_nat (length x)))%Z with false
    by (symmetry; apply andb_false_iff; right; apply Z.ltb_ge; lia).
  replace ((- Z.of_nat (length x) <=? Z.of_nat ir - 1)
           && (Z.of_nat ir - 1 <? 0))%Z with false
    by (symmetry; apply andb_false_iff; right; apply Z.ltb_ge; lia).
  reflexivity.
Qed.

(** X17.  When every record has a non-empty time axis at least as long as
    the integration range, [plot_data] draws one plot per record, with the
    time axis scaled by the time unit, the correlation series unscaled, and
    the span at the scaled time of index [integration_range - 1]; an
    integration range of 0 wraps around to the last point of the axis. *)
Theorem plot_data_marks_integration_range (st : Calculator)
  (data : list (string * ResultRecord)) :
  Forall (fun kv => (1 <= length (result_time (snd kv)))%nat
                    /\ (integration_range st
                        <= length (result_time (snd kv)))%nat) data ->
  plot_data st data
  = Some (map (fun kv =>
                 {| x_data := map (fun t => t * units_time (experiment st))
                                  (result_time (snd kv));
                    y_data := result_vacf (snd kv);
                    span_location :=
                      nth (span_index (integration_range st)
                             (length (result_time (snd kv))))
                          (result_time (snd kv)) 0
                      * units_time (experiment st) |})
              data).
Proof.
  intros H. unfold plot_data. apply traverse_all_some.
  eapply Forall_impl; [|exact H]. intros [key val] [Hn Hir].
  cbn [snd] in *. unfold plot_one.
  rewrite py_getitem_span by (rewrite length_map; assumption).
  rewrite length_map. do 2 f_equal.
  rewrite <- (Rmult_0_l (units_time (experiment st))) at 1.
  apply (map_nth (fun t => t * units_time (experiment st))).
Qed.

Lemma plot_data_marks_integration_range_witness :
  plot_data Example.final
    (map (fun r => ("Na_Na", snd r)) (queue Example.final))
  = Some (map (fun kv =>
                 {| x_data :=
                      map (fun t => t * units_time (experiment Example.final))
                          (result_time (snd kv));
                    y_data := result_vacf (snd kv);
                    span_location :=
                      nth (span_index (integration_range Example.final)
                             (length (result_time (snd kv))))
                          (result_time (snd kv)) 0
                      * units_time (experiment Example.final) |})
              (map (fun r => ("Na_Na", snd r)) (queue Example.final))).
Proof.
  apply (plot_data_marks_integration_range Example.final
           (map (fun r => ("Na_Na", snd r)) (queue Example.final))).
  repeat constructor.
Defined.

(** X18.  [plot_data] raises when a record has a time axis shorter than
    the integration range: the index of the span is out of range. *)
Theorem plot_data_raises_beyond_axis (st : Calculator)
  (data : list (string * ResultRecord)) (kv : string * ResultRecord) :
  In kv data ->
  (length (result_time (snd kv)) < integration_range st)%nat ->
  plot_data st data = None.
Proof.
  intros Hin H. unfold plot_data.
  apply (traverse_one_none _ data kv Hin).
  unfold plot_one.
  rewrite py_getitem_out_of_range by (rewrite length_map; exact H).
  reflexivity.
Qed.

Lemma plot_data_raises_beyond_axis_witness :
  plot_data (call Example.calculator (Some ["Na"]) 2 1 (Some 3%nat) [0; 1])
            (map (fun r => ("Na_Na", snd r)) (queue Example.final)) = None.
Proof.
  apply (plot_data_raises_beyond_axis
           (call Example.calculator (Some ["Na"]) 2 1 (Some 3%nat) [0; 1])
           (map (fun r => ("Na_Na", snd r)) (queue Example.final))
           ("Na_Na",
            {| diffusion_coefficient :=
                 scaled_mean (1 / 6) (map snd Example.outcomes);
               uncertainty :=
                 scaled_standard_error (1 / 6) (map snd Example.outcomes);
               result_time := [0; 1];
               result_vacf := [8; 4] |})).
  - left. reflexivity.
  - simpl. lia.
Defined.

(* ------------------------------------------------------------------ *)
(** ** The flux analysis: time axis, prefactor, plot and flux matrix *)

Lemma linspace_form (start stop : R) (num : nat) :
  (2 <= num)%nat ->
  Floats.linspace start stop num
  = (map (fun i => INR i * ((stop - start) / INR (num - 1)) + start)
         (seq 0 (num - 1)) ++ [stop])%list.
Proof.
  intros H. destruct num as [|[|k]]; try lia.
  unfold Floats.linspace. f_equal.
  replace (S (S k) - 1)%nat with (S k) by lia.
  rewrite (seq_S (S k) 0), map_app. cbn [map]. apply removelast_last.
Qed.

Lemma linspace_length (start stop : R) (num : nat) :
  length (Floats.linspace start stop num) = num.
Proof.
  destruct num as [|[|k]]; try reflexivity.
  rewrite linspace_form by lia.
  rewrite length_app, length_map, length_seq. simpl. lia.
Qed.

Lemma linspace_nth (start stop : R) (num i : nat) :
  (2 <= num)%nat -> (i < num)%nat ->
  nth i (Floats.linspace start stop num) 0
  = start + INR i * ((stop - start) / INR (num - 1)).
Proof.
  intros H Hi. rewrite linspace_form by exact H.
  assert (N : 0 < INR (num - 1)) by (apply lt_0_INR; lia).
  destruct (Nat.eq_dec i (num - 1)) as [-> | Hne].
  - rewrite app_nth2 by (rewrite length_map, length_seq; lia).
    rewrite length_map, length_seq, Nat.sub_diag. cbn [nth].
    field. lra.
  - rewrite app_nth1 by (rewrite length_map, length_seq; lia).
    rewrite (nth_indep _ 0
               ((fun i => INR i * ((stop - start) / INR (num - 1)) + start)
                  0%nat))
      by (rewrite length_map, length_seq; lia).
    rewrite (map_nth
               (fun i => INR i * ((stop - start) / INR (num - 1)) + start)).
    rewrite seq_nth by lia. cbn [Nat.add]. lra.
Qed.

(** X19.  The time axis of the flux analysis has [data_range] points; it
    starts at 0, ends at [data_range * time_step * sample_rate * unit] and
    is evenly spaced.  Its step is therefore the sampling interval
    [time_step * sample_rate * unit] times [data_range / (data_range - 1)],
    not the sampling interval itself. *)
Theorem flux_time_axis (parent : ThermalFlux.Parent) (dr : nat) :
  (2 <= dr)%nat ->
  length (ThermalFlux.init_time parent dr) = dr
  /\ nth 0 (ThermalFlux.init_time parent dr) 0 = 0
  /\ nth (dr - 1) (ThermalFlux.init_time parent dr) 0
     = INR dr * ThermalFlux.time_step parent
       * IZR (ThermalFlux.sample_rate parent) * ThermalFlux.unit_time parent
  /\ forall i, (i + 1 < dr)%nat ->
       nth (i + 1) (ThermalFlux.init_time parent dr) 0
       - nth i (ThermalFlux.init_time parent dr) 0
       = ThermalFlux.time_step parent * IZR (ThermalFlux.sample_rate parent)
         * ThermalFlux.unit_time parent * (INR dr / INR (dr - 1)).
Proof.
  intros H. unfold ThermalFlux.init_time.
  assert (N : 0 < INR (dr - 1)) by (apply lt_0_INR; lia).
  split; [apply linspace_length|]. split; [|split].
  - rewrite linspace_nth by lia. cbn [INR]. lra.
  - rewrite linspace_nth by lia. field. lra.
  - intros i Hi. rewrite !linspace_nth by lia.
    rewrite plus_INR. cbn [INR]. field. lra.
Qed.

Lemma flux_time_axis_witness :
  length (ThermalFlux.init_time
            {| ThermalFlux.time_step := 2; ThermalFlux.sample_rate := 1;
               ThermalFlux.unit_time := 1; ThermalFlux.unit_length := 1;
               ThermalFlux.temperature := 70; ThermalFlux.volume := 1 |} 3)
  = 3%nat
  /\ nth 0 (ThermalFlux.init_time
              {| ThermalFlux.time_step := 2; ThermalFlux.sample_rate := 1;
                 ThermalFlux.unit_time := 1; ThermalFlux.unit_length := 1;
                 ThermalFlux.temperature := 70; ThermalFlux.volume := 1 |} 3)
         0 = 0
  /\ nth (3 - 1)
         (ThermalFlux.init_time
            {| ThermalFlux.time_step := 2; ThermalFlux.sample_rate := 1;
               ThermalFlux.unit_time := 1; ThermalFlux.unit_length := 1;
               ThermalFlux.temperature := 70; ThermalFlux.volume := 1 |} 3)
         0
     = INR 3 * 2 * IZR 1 * 1
  /\ forall i, (i + 1 < 3)%nat ->
       nth (i + 1)
           (ThermalFlux.init_time
              {| ThermalFlux.time_step := 2; ThermalFlux.sample_rate := 1;
                 ThermalFlux.unit_time := 1; ThermalFlux.unit_length := 1;
                 ThermalFlux.temperature := 70; ThermalFlux.volume := 1 |} 3)
           0
       - nth i
           (ThermalFlux.init_time
              {| ThermalFlux.time_step := 2; ThermalFlux.sample_rate := 1;
                 ThermalFlux.unit_time := 1; ThermalFlux.unit_length := 1;
                 ThermalFlux.temperature := 70; ThermalFlux.volume := 1 |} 3)
           0
       = 2 * IZR 1 * 1 * (INR 3 / INR (3 - 1)).
Proof.
  apply (flux_time_axis
           {| ThermalFlux.time_step := 2; ThermalFlux.sample_rate := 1;
              ThermalFlux.unit_time := 1; ThermalFlux.unit_length := 1;
              ThermalFlux.temperature := 70; ThermalFlux.volume := 1 |} 3).
  lia.
Defined.

(** X20.  With [data_range = 2] the thermal conductivity can never be
    computed: the factor [data_range / 2 - 1] of the denominator is zero,
    and the method raises at the division, before it loads any flux. *)
Theorem flux_data_range_two_raises (kB : R) (parent : ThermalFlux.Parent)
  (plot : bool) (load_column : string -> option Numpy.ndarray)
  (convolution : Z -> list Vec3 -> nat -> Numpy.ndarray -> option (list R)) :
  ThermalFlux.compute_thermal_conductivity kB parent plot 2 load_column
    convolution = None.
Proof.
  unfold ThermalFlux.compute_thermal_conductivity.
  destruct (Req_dec_T _ _) as [_|N]; [reflexivity|].
  exfalso. apply N. cbn [INR]. field.
Qed.

Lemma py_max_zeros (n : nat) : Floats.py_max (Numpy.zeros (S n)) = Some 0.
Proof.
  unfold Floats.py_max, Numpy.zeros. cbn [repeat]. f_equal.
  induction n as [|n IH]; [reflexivity|].
  cbn [repeat fold_left].
  destruct (Rlt_dec 0 0) as [L|_]; [lra | exact IH].
Qed.

Lemma true_divide_zero_zero : Floats.true_divide 0 0 = Floats.NotANumber.
Proof.
  unfold Floats.true_divide.
  destruct (Req_dec_T 0 0) as [_|N]; [reflexivity | congruence].
Qed.

(** X21.  With [plot] set, whenever the method returns, [data_range] is at
    least 1 and the curve it plots consists of [data_range] nans: the
    averaged correlation is still all zeros when it is divided by its
    maximum, because nothing in the method adds to it. *)
Theorem flux_plot_is_all_nan (kB : R) (parent : ThermalFlux.Parent)
  (dr : nat) (load_column : string -> option Numpy.ndarray)
  (convolution : Z -> list Vec3 -> nat -> Numpy.ndarray -> option (list R))
  (o : ThermalFlux.Outcome) :
  ThermalFlux.compute_thermal_conductivity kB parent true dr load_column
    convolution = Some o ->
  (1 <= dr)%nat
  /\ ThermalFlux.plotted o
     = Some (ThermalFlux.init_time parent dr, repeat Floats.NotANumber dr).
Proof.
  unfold ThermalFlux.compute_thermal_conductivity.
  destruct (Req_dec_T _ _) as [_|_]; [discriminate|].
  destruct (ThermalFlux.load_flux_matrix _) as [flux|]; [|discriminate].
  destruct (convolution _ _ _ _) as [sigma|]; [|discriminate].
  destruct dr as [|k]; [discriminate|].
  rewrite py_max_zeros. intros H. injection H as <-.
  split; [lia|]. cbn [ThermalFlux.plotted]. do 2 f_equal.
  unfold Numpy.zeros. rewrite map_repeat, true_divide_zero_zero.
  reflexivity.
Qed.

Lemma flux_plot_is_all_nan_witness :
  exists o,
    ThermalFlux.compute_thermal_conductivity 1
      {| ThermalFlux.time_step := 2; ThermalFlux.sample_rate := 1;
         ThermalFlux.unit_time := 1; ThermalFlux.unit_length := 1;
         ThermalFlux.temperature := 1; ThermalFlux.volume := 1 |}
      true 4 (fun _ => Some [1; 2; 3; 4; 5; 6]) (fun _ _ _ _ => Some [1])
    = Some o
    /\ (1 <= 4)%nat
    /\ ThermalFlux.plotted o
       = Some (ThermalFlux.init_time
                 {| ThermalFlux.time_step := 2; ThermalFlux.sample_rate := 1;
                    ThermalFlux.unit_time := 1; ThermalFlux.unit_length := 1;
                    ThermalFlux.temperature := 1; ThermalFlux.volume := 1 |}
                 4,
               repeat Floats.NotANumber 4).
Proof.
  assert (H : exists o,
             ThermalFlux.compute_thermal_conductivity 1
               {| ThermalFlux.time_step := 2; ThermalFlux.sample_rate := 1;
                  ThermalFlux.unit_time := 1; ThermalFlux.unit_length := 1;
                  ThermalFlux.temperature := 1; ThermalFlux.volume := 1 |}
               true 4 (fun _ => Some [1; 2; 3; 4; 5; 6])
               (fun _ _ _ _ => Some [1])
             = Some o).
  { unfold ThermalFlux.compute_thermal_conductivity.
    destruct (Req_dec_T _ _) as [E|_].
    - exfalso. cbn in E. lra.
    - cbn -[Floats.py_max Numpy.zeros]. rewrite (py_max_zeros 3).
      eexists. reflexivity. }
  destruct H as [o H]. exists o. split; [exact H|].
  apply (flux_plot_is_all_nan 1 _ 4 _ _ o H).
Defined.

Lemma transpose3_columns (c1 c2 c3 : Numpy.ndarray) :
  length c1 = length c2 -> length c2 = length c3 ->
  column 0 (ThermalFlux.transpose3 c1 c2 c3) = c1
  /\ column 1 (ThermalFlux.transpose3 c1 c2 c3) = c2
  /\ column 2 (ThermalFlux.transpose3 c1 c2 c3) = c3
  /\ length (ThermalFlux.transpose3 c1 c2 c3) = length c1.
Proof.
  revert c2 c3. induction c1 as [|a c1 IH]; intros [|b c2] [|c c3] H1 H2;
    try discriminate.
  - repeat split.
  - destruct (IH c2 c3) as (E0 & E1 & E2 & L);
      [simpl in *; lia | simpl in *; lia |].
    cbn [ThermalFlux.transpose3 column map component length] in *.
    unfold column in E0, E1, E2. rewrite E0, E1, E2, L. repeat split.
Qed.

(** X22.  When the three flux columns can be loaded and have one length,
    [load_flux_matrix] returns a matrix with one row per timestep whose
    three columns are the loaded columns, in the order
    [c_flux_thermal[1]], [c_flux_thermal[2]], [c_flux_thermal[3]]; when any
    of the three cannot be loaded it raises. *)
Theorem load_flux_matrix_columns
  (load_column : string -> option Numpy.ndarray) (c1 c2 c3 : Numpy.ndarray) :
  load_column "c_flux_thermal[1]" = Some c1 ->
  load_column "c_flux_thermal[2]" = Some c2 ->
  load_column "c_flux_thermal[3]" = Some c3 ->
  length c1 = length c2 -> length c2 = length c3 ->
  (exists flux,
      ThermalFlux.load_flux_matrix load_column = Some flux
      /\ length flux = length c1
      /\ column 0 flux = c1 /\ column 1 flux = c2 /\ column 2 flux = c3)
  /\ forall load_column' : string -> option Numpy.ndarray,
      (load_column' "c_flux_thermal[1]" = None
       \/ load_column' "c_flux_thermal[2]" = None
       \/ load_column' "c_flux_thermal[3]" = None) ->
      ThermalFlux.load_flux_matrix load_column' = None.
Proof.
  intros H1 H2 H3 L1 L2. split.
  - unfold ThermalFlux.load_flux_matrix. rewrite H1, H2, H3.
    replace ((length c1 =? length c2) && (length c2 =? length c3))%nat
      with true
      by (symmetry; apply andb_true_iff; split; apply Nat.eqb_eq; assumption).
    destruct (transpose3_columns c1 c2 c3 L1 L2) as (E0 & E1 & E2 & L).
    eexists. split; [reflexivity|]. repeat split; assumption.
  - intros load' H. unfold ThermalFlux.load_flux_matrix.
    destruct (load' "c_flux_thermal[1]"); [|reflexivity].
    destruct (load' "c_flux_thermal[2]"); [|reflexivity].
    destruct (load' "c_flux_thermal[3]"); [|reflexivity].
    destruct H as [H | [H | H]]; discriminate.
Qed.

Lemma load_flux_matrix_columns_witness :
  (exists flux,
      ThermalFlux.load_flux_matrix
        (fun id => if String.eqb id "c_flux_thermal[1]" then Some [1; 2]
                   else if String.eqb id "c_flux_thermal[2]" then Some [3; 4]
                   else Some [5; 6]) = Some flux
      /\ length flux = length [1; 2]
      /\ column 0 flux = [1; 2] /\ column 1 flux = [3; 4]
      /\ column 2 flux = [5; 6])
  /\ forall load_column' : string -> option Numpy.ndarray,
      (load_column' "c_flux_thermal[1]" = None
       \/ load_column' "c_flux_thermal[2]" = None
       \/ load_column' "c_flux_thermal[3]" = None) ->
      ThermalFlux.load_flux_matrix load_column' = None.
Proof.
  apply (load_flux_matrix_columns
           (fun id => if String.eqb id "c_flux_thermal[1]" then Some [1; 2]
                      else if String.eqb id "c_flux_thermal[2]"
                           then Some [3; 4]
                           else Some [5; 6])
           [1; 2] [3; 4] [5; 6]); reflexivity.
Defined.

(* ------------------------------------------------------------------ *)
(** ** The command line interface: which directory counts as a project,
    and when data is removed *)

Lemma string_length_append (s1 s2 : string) :
  String.length (s1 ++ s2) = (String.length s1 + String.length s2)%nat.
Proof.
  induction s1 as [|c s1 IH]; [reflexivity|].
  cbn [append String.length]. rewrite IH. reflexivity.
Qed.

Lemma substring_length (n m : nat) (s : string) :
  String.length (substring n m s) = Nat.min m (String.length s - n).
Proof.
  revert m s. induction n as [|n IH]; intros m s.
  - rewrite Nat.sub_0_r. revert s.
    induction m as [|m IHm]; intros [|c s]; try reflexivity.
    cbn [substring String.length]. rewrite IHm. reflexivity.
  - destruct s as [|c s].
    + destruct m; reflexivity.
    + cbn [substring String.length Nat.sub]. apply IH.
Qed.

Lemma substring_prefix (name rest : string) :
  substring 0 (String.length name) (name ++ rest) = name.
Proof.
  induction name as [|c name IH].
  - destruct rest; reflexivity.
  - cbn [append String.length substring]. rewrite IH. reflexivity.
Qed.

Lemma substring_middle (prefix name rest : string) :
  substring (String.length prefix) (String.length name)
            (prefix ++ name ++ rest) = name.
Proof.
  induction prefix as [|c prefix IH]; [exact (substring_prefix name rest)|].
  cbn [append String.length substring]. exact IH.
Qed.

(** X24.  [Check_Directories] cuts the project name out of a directory
    path with the fixed slice [[23:-1]].  For a path of the form
    [prefix + name + "/"] with a non-empty name, the slice is the name
    exactly when the prefix has 23 characters.  The default storage
    directory ["../Project_Directory/"] has 21, so for the paths below it,
    written with one or with two slashes before the name, the slice is
    never the name of the directory. *)
Theorem directory_name_needs_23_characters (prefix name : string) :
  name <> "" ->
  (UI.directory_name (prefix ++ name ++ "/") = name
   <-> String.length prefix = 23%nat)
  /\ UI.directory_name ("../Project_Directory/" ++ name ++ "/") <> name
  /\ UI.directory_name ("../Project_Directory//" ++ name ++ "/") <> name.
Proof.
  intros Hne.
  assert (Ln : (1 <= String.length name)%nat)
    by (destruct name; [congruence | simpl; lia]).
  assert (K : forall pre,
             UI.directory_name (pre ++ name ++ "/") = name
             <-> String.length pre = 23%nat).
  { intros pre. unfold UI.directory_name. split.
    - intros E. apply (f_equal String.length) in E.
      rewrite substring_length, !string_length_append in E.
      cbn [String.length] in E. lia.
    - intros L.
      replace (String.length (pre ++ name ++ "/") - 1 - 23)%nat
        with (String.length name)
        by (rewrite !string_length_append; cbn [String.length]; lia).
      rewrite <- L. apply substring_middle. }
  split; [apply K|].
  split; intros E; apply K in E; discriminate.
Qed.

Lemma directory_name_needs_23_characters_witness :
  (UI.directory_name ("./../Project_Directory/" ++ "NaCl" ++ "/") = "NaCl"
   <-> String.length "./../Project_Directory/" = 23%nat)
  /\ UI.directory_name ("../Project_Directory/" ++ "NaCl" ++ "/") <> "NaCl"
  /\ UI.directory_name ("../Project_Directory//" ++ "NaCl" ++ "/") <> "NaCl".
Proof.
  apply (directory_name_needs_23_characters "./../Project_Directory/" "NaCl").
  discriminate.
Defined.

Lemma existsb_eqb_in (x : string) (l : list string) :
  existsb (String.eqb x) l = true <-> In x l.
Proof.
  rewrite existsb_exists. split.
  - intros (y & Hy & E). apply String.eqb_eq in E. subst y. exact Hy.
  - intros H. exists x. split; [exact H | apply String.eqb_refl].
Qed.

Lemma check_directories_removal
  (glob : string -> list string) (rmtree : string -> bool)
  (project_name filepath : string)
  (answers rest : list string) (cls : option UI.TrajectoryClass)
  (effects : list UI.Effect) (path : string) :
  UI.check_directories glob rmtree project_name filepath answers
  = Some (cls, rest, effects) ->
  In (UI.Removed path) effects ->
  path = filepath ++ "/" ++ project_name
  /\ In project_name (map UI.directory_name (glob (filepath ++ "/*/")))
  /\ answers = "2" :: rest
  /\ cls = Some (UI.Built project_name filepath).
Proof.
  unfold UI.check_directories, UI.get_input.
  destruct (existsb _ _) eqn:Ex.
  - apply existsb_eqb_in in Ex.
    destruct answers as [|a answers']; [discriminate|].
    unfold UI.process_decision.
    destruct (String.eqb a "1") eqn:E1;
      [intros H; injection H as <- <- <-; cbn [app In];
       intros [F | []]; discriminate|].
    destruct (String.eqb a "2") eqn:E2.
    { apply String.eqb_eq in E2. subst a.
      destruct (rmtree _); [|discriminate].
      intros H. injection H as <- <- <-. cbn [app In].
      intros [F | [F | []]]; [discriminate|]. injection F as <-. auto. }
    destruct (String.eqb a "3") eqn:E3.
    { destruct answers' as [|name answers'']; [discriminate|].
      intros H. injection H as <- <- <-. cbn [app In].
      intros [F | [F | []]]; discriminate. }
    destruct (String.eqb a "4") eqn:E4.
    { intros H. injection H as <- <- <-. cbn [app In].
      intros [F | []]. discriminate. }
    intros H. injection H as <- <- <-. cbn [app In].
    intros [F | [F | []]]; discriminate.
  - intros H. injection H as <- <- <-. cbn [app In]. intros [].
Qed.

(** X25.  [Check_Directories] removes a directory tree only when the
    project name is among the directories found and the user answers "2" to
    the question; the tree removed is then [filepath/project_name], and the
    project is built anew under the same name. *)
Theorem removal_needs_existing_project_and_answer_2
  (glob : string -> list string) (rmtree : string -> bool)
  (project_name filepath : string)
  (answers rest : list string) (cls : option UI.TrajectoryClass)
  (effects : list UI.Effect) (path : string) :
  UI.check_directories glob rmtree project_name filepath answers
  = Some (cls, rest, effects) ->
  In (UI.Removed path) effects ->
  path = filepath ++ "/" ++ project_name
  /\ In project_name (map UI.directory_name (glob (filepath ++ "/*/")))
  /\ answers = "2" :: rest
  /\ cls = Some (UI.Built project_name filepath).
Proof. apply check_directories_removal. Qed.

Lemma removal_needs_existing_project_and_answer_2_witness :
  "./../Project_Directory/NaCl" = "./../Project_Directory" ++ "/" ++ "NaCl"
  /\ In "NaCl"
        (map UI.directory_name
             ((fun _ => ["./../Project_Directory/NaCl/"])
                ("./../Project_Directory" ++ "/*/")))
  /\ ["2"] = "2" :: []
  /\ Some (UI.Built "NaCl" "./../Project_Directory")
     = Some (UI.Built "NaCl" "./../Project_Directory").
Proof.
  apply (removal_needs_existing_project_and_answer_2
           (fun _ => ["./../Project_Directory/NaCl/"]) (fun _ => true)
           "NaCl" "./../Project_Directory" ["2"] []
           (Some (UI.Built "NaCl" "./../Project_Directory"))
           [UI.AskedDecision "NaCl";
            UI.Removed "./../Project_Directory/NaCl"]
           "./../Project_Directory/NaCl").
  - reflexivity.
  - right. left. reflexivity.
Defined.

(** X26.  When the project name is not among the directories found,
    [Check_Directories] asks nothing and removes nothing: it builds the
    project under the given name and leaves the user's input untouched. *)
Theorem fresh_project_is_built_unasked
  (glob : string -> list string) (rmtree : string -> bool)
  (project_name filepath : string) (answers : list string) :
  ~ In project_name (map UI.directory_name (glob (filepath ++ "/*/"))) ->
  UI.check_directories glob rmtree project_name filepath answers
  = Some (Some (UI.Built project_name filepath), answers, []).
Proof.
  intros H. unfold UI.check_directories, UI.get_input.
  destruct (existsb _ _) eqn:Ex.
  - apply existsb_eqb_in in Ex. contradiction.
  - reflexivity.
Qed.

Lemma fresh_project_is_built_unasked_witness :
  UI.check_directories (fun _ => ["./../Project_Directory/NaCl/"])
    (fun _ => false) "Argon" "./../Project_Directory" ["2"]
  = Some (Some (UI.Built "Argon" "./../Project_Directory"), ["2"], []).
Proof.
  apply (fresh_project_is_built_unasked
           (fun _ => ["./../Project_Directory/NaCl/"]) (fun _ => false)
           "Argon" "./../Project_Directory" ["2"]).
  simpl. intros [E | []]. discriminate.
Defined.

(** X27.  [Process_Arguments] removes data only on the way of a new
    project: when a directory tree has been removed, the flag
    [--new_project] was set, the tree is [directory/project_name] and the
    user answered "2".  Loading an old project, or giving neither flag,
    removes nothing. *)
Theorem only_a_new_project_removes_data
  (glob : string -> list string) (rmtree : string -> bool)
  (args : UI.Arguments)
  (answers rest : list string) (result : option UI.TrajectoryClass * string)
  (effects : list UI.Effect) (path : string) :
  UI.process_arguments glob rmtree args answers
  = Some (result, rest, effects) ->
  In (UI.Removed path) effects ->
  UI.new_project args = true
  /\ path = UI.directory args ++ "/" ++ UI.project_name args
  /\ answers = "2" :: rest
  /\ result = (Some (UI.Built (UI.project_name args) (UI.directory args)),
               UI.directory args).
Proof.
  unfold UI.process_arguments. destruct (UI.new_project args).
  - destruct (UI.check_directories _ _ _ _ _)
      as [[[cls rest'] effects']|] eqn:E;
      [|discriminate].
    intros H Hin. injection H as <- <- <-.
    destruct (check_directories_removal _ _ _ _ _ _ _ _ _ E Hin)
      as (-> & _ & -> & ->).
    repeat split.
  - destruct (UI.old_project args); intros H; injection H as <- <- <-;
      cbn [In]; intros Hin;
      [destruct Hin | destruct Hin as [F | []]; discriminate].
Qed.

Lemma only_a_new_project_removes_data_witness :
  UI.new_project
    {| UI.new_project := true; UI.old_project := false;
       UI.project_name := "NaCl";
       UI.directory := "./../Project_Directory" |} = true
  /\ "./../Project_Directory/NaCl" = "./../Project_Directory" ++ "/" ++ "NaCl"
  /\ ["2"] = "2" :: []
  /\ (Some (UI.Built "NaCl" "./../Project_Directory"),
      "./../Project_Directory")
     = (Some (UI.Built "NaCl" "./../Project_Directory"),
        "./../Project_Directory").
Proof.
  apply (only_a_new_project_removes_data
           (fun _ => ["./../Project_Directory/NaCl/"]) (fun _ => true)
           {| UI.new_project := true; UI.old_project := false;
              UI.project_name := "NaCl";
              UI.directory := "./../Project_Directory" |}
           ["2"] []
           (Some (UI.Built "NaCl" "./../Project_Directory"),
            "./../Project_Directory")
           [UI.AskedDecision "NaCl";
            UI.Removed "./../Project_Directory/NaCl"]
           "./../Project_Directory/NaCl").
  - reflexivity.
  - right. left. reflexivity.
Defined.
